(** * cachetrace: a QEMU plugin that dumps the physical addresses of guest
    memory accesses

    Shallow embedding of [contrib/plugins/cachetrace.c].  The plugin is a set
    of callbacks that the emulator invokes; its state is the C static
    [plugin_state], its outputs are the dump file, the plugin log
    ([qemu_plugin_outs]), standard error, and the callbacks it registers with
    the emulator.

    Conventions of the model:
    - [uint64_t] values are [Z] with the wrap-around written out ([wrap64]);
      [size_t] sizes and indices are [nat];
    - a C call whose behaviour is undefined (a NULL or closed [FILE *], a read
      past the end of a buffer) yields [None]; every callback therefore lives
      in the [option] monad;
    - the answers of the outside world (does this [fwrite] succeed, does this
      path open, what does the emulator resolve this address to) are inputs
      of the model. *)

From Stdlib Require Import ZArith String Ascii Bool Arith Lia DecimalString List.
From Stdlib Require Import Init.Byte Strings.Byte.
From coqutil Require Import Byte Word.LittleEndianList.
Import ListNotations.

Local Open Scope Z_scope.

(** ** The option monad for undefined behaviour *)

Definition bind {A B : Type} (m : option A) (k : A -> option B) : option B :=
  match m with
  | Some a => k a
  | None => None
  end.

Notation "x <- m ;; k" := (bind m (fun x => k))
  (at level 61, m at next level, right associativity).
Notation "' pat <- m ;; k" := (bind m (fun x => match x with pat => k end))
  (at level 61, pat pattern, m at next level, right associativity).

(** ** Machine integers and their bytes *)

Definition wrap64 (z : Z) : Z := z mod 2 ^ 64.

(** The object representation of a [uint64_t], as [fwrite (&x, sizeof x, 1, f)]
    sees it.  The plugin only loads into an x86_64 system emulator and the
    trace format is little-endian, so the host is taken to be little-endian. *)
Definition bytes_of_uint64 (z : Z) : list byte := le_split 8 z.

Definition uint64_of_bytes (bs : list byte) : Z := le_combine bs.

(** ** The magic instruction *)

(** [MAGIC_INST]: movabsq rax, 0xcafebabedeadbeef *)
Definition MAGIC_INST : list byte :=
  [x48; xb8; xef; xbe; xad; xde; xbe; xba; xfe; xca].

Definition sizeof_MAGIC_INST : nat := length MAGIC_INST.

(** [memcmp s1 s2 n]: compares the first [n] bytes of two buffers as unsigned
    chars; the result is zero when they agree and the difference of the first
    pair that differs otherwise.  Reading past the end of a buffer is
    undefined. *)
Fixpoint memcmp (s1 s2 : list byte) (n : nat) {struct n} : option Z :=
  match n with
  | O => Some 0
  | S n' =>
      match s1, s2 with
      | a :: s1', b :: s2' =>
          if Byte.eqb a b then memcmp s1' s2' n'
          else Some (byte.unsigned a - byte.unsigned b)
      | _, _ => None
      end
  end.

(** Is the instruction the magic instruction?  [&&] does not evaluate
    its right operand when the sizes differ. *)
Definition is_magic_inst (data : list byte) (size : nat) : option bool :=
  if Nat.eqb size sizeof_MAGIC_INST then
    r <- memcmp data MAGIC_INST sizeof_MAGIC_INST ;;
    Some (r =? 0)
  else Some false.

(** ** Strings of the C library and of GLib *)

Definition nl : string := String "010"%char EmptyString.

(** [printf ("%" PRIu64, n)] *)
Definition PRIu64 (n : Z) : string := NilZero.string_of_uint (N.to_uint (Z.to_N n)).

(** Cuts [s] at the first occurrence of the delimiter. *)
Fixpoint split_first (d : ascii) (s : string) : option (string * string) :=
  match s with
  | EmptyString => None
  | String c s' =>
      if Ascii.eqb c d then Some (EmptyString, s')
      else match split_first d s' with
           | Some (a, b) => Some (String c a, b)
           | None => None
           end
  end.

(** [g_strsplit (s, d, 2)] for a one-character delimiter: at most two pieces,
    cut at the first delimiter; the empty string gives the empty vector.  The
    result is a NULL-terminated vector, so the entry after the last piece
    reads as NULL ([nth_error] gives [None]). *)
Definition g_strsplit (s : string) (d : ascii) : list string :=
  match s with
  | EmptyString => []
  | _ => match split_first d s with
         | Some (a, b) => [a; b]
         | None => [s]
         end
  end.

Definition strcmp (a b : string) : Z :=
  match String.compare a b with
  | Eq => 0
  | Lt => -1
  | Gt => 1
  end.

(** [g_strcmp0]: [strcmp] that accepts NULL, which sorts before any string. *)
Definition g_strcmp0 (a b : option string) : Z :=
  match a, b with
  | None, None => 0
  | None, Some _ => -1
  | Some _, None => 1
  | Some x, Some y => strcmp x y
  end.

(** ** Streams *)

(** A [FILE] opened on a regular file: the bytes of the file, the position
    indicator, the error indicator, and whether [fclose] has run. *)
Record FILE : Type := mkFILE {
  f_path : string;
  f_data : list byte;
  f_pos : nat;
  f_error : bool;
  f_open : bool
}.

(** Storing [buf] at offset [pos] overwrites what is there and extends the
    file as needed (a gap would read as zeros). *)
Definition put_bytes (pos : nat) (buf data : list byte) : list byte :=
  firstn pos data ++ repeat x00 (pos - length data) ++ buf
  ++ skipn (pos + length buf) data.

(** ** The emulator and the host *)

(** What the plugin consumes from outside: the emulator's address resolution
    ([qemu-plugin.h] declares these functions and keeps both types opaque),
    the file system's answer to [fopen (path, "wb")], and what an operation
    on a stream leaves behind when it fails: the bytes of the file and the
    position indicator after a failed write (given the bytes, the position
    and the object) and after a failed seek.  The C standard fixes neither;
    a write may have been transferred in part. *)
Class Host : Type := {
  qemu_plugin_meminfo_t : Type;
  qemu_plugin_hwaddr : Type;
  qemu_plugin_get_hwaddr :
    qemu_plugin_meminfo_t -> Z -> option qemu_plugin_hwaddr;
  qemu_plugin_hwaddr_is_io : qemu_plugin_hwaddr -> bool;
  qemu_plugin_hwaddr_phys_addr : qemu_plugin_hwaddr -> Z;
  can_open : string -> bool;
  failed_write : list byte -> nat -> list byte -> list byte * nat;
  failed_seek : list byte -> nat -> list byte * nat
}.

(** [fwrite (&obj, sizeof obj, 1, stream)], where [obj] is the object
    representation.  [ok] is the outcome chosen by the outside world.  A
    write that succeeds stores the object at the position and returns 1.  A
    write that fails returns 0 and sets the error indicator; the bytes and
    the position it leaves are the host's ([failed_write]).  The result is
    the return value and the stream afterwards. *)
Definition fwrite `{Host} (ok : bool) (obj : list byte) (stream : option FILE)
  : option (nat * FILE) :=
  f <- stream ;;
  if f_open f then
    if ok then
      Some (1%nat, mkFILE (f_path f) (put_bytes (f_pos f) obj (f_data f))
                          (f_pos f + length obj) (f_error f) true)
    else
      let left := failed_write (f_data f) (f_pos f) obj in
      Some (0%nat, mkFILE (f_path f) (fst left) (snd left) true true)
  else None.

(** [fseek (stream, offset, SEEK_SET)].  A seek that fails returns -1 and
    sets the error indicator; the bytes and the position it leaves are the
    host's ([failed_seek]). *)
Definition fseek `{Host} (ok : bool) (stream : option FILE) (offset : nat)
  : option (Z * FILE) :=
  f <- stream ;;
  if f_open f then
    if ok then Some (0, mkFILE (f_path f) (f_data f) offset (f_error f) true)
    else
      let left := failed_seek (f_data f) (f_pos f) in
      Some (-1, mkFILE (f_path f) (fst left) (snd left) true true)
  else None.

(** [fclose (stream)], for a close that succeeds. *)
Definition fclose (stream : option FILE) : option (Z * FILE) :=
  f <- stream ;;
  if f_open f then
    Some (0, mkFILE (f_path f) (f_data f) (f_pos f) (f_error f) false)
  else None.

(** [fopen (path, "wb")]: a fresh stream on an empty file, or NULL.  A NULL
    path is undefined. *)
Definition fopen `{Host} (path : option string) : option (option FILE) :=
  p <- path ;;
  Some (if can_open p then Some (mkFILE p [] 0 false true) else None).

(** Modelled from the spec: the access-direction filter
    [enum qemu_plugin_mem_rw] of [qemu-plugin.h], which is not among the
    sources at hand: read, write, or both. *)
Inductive qemu_plugin_mem_rw : Type :=
| QEMU_PLUGIN_MEM_R
| QEMU_PLUGIN_MEM_W
| QEMU_PLUGIN_MEM_RW.

Inductive qemu_plugin_cb_flags : Type :=
| QEMU_PLUGIN_CB_NO_REGS
| QEMU_PLUGIN_CB_R_REGS
| QEMU_PLUGIN_CB_RW_REGS.

(** An instruction of a translation block: the handle the emulator gives out
    is told apart by its position in the block. *)
Record qemu_plugin_insn : Type := mkInsn {
  insn_index : nat;
  insn_bytes : list byte
}.

Definition qemu_plugin_insn_data (insn : qemu_plugin_insn) : list byte :=
  insn_bytes insn.

Definition qemu_plugin_insn_size (insn : qemu_plugin_insn) : nat :=
  length (insn_bytes insn).

(** A translation block is the sequence of its instructions' bytes. *)
Definition qemu_plugin_tb : Type := list (list byte).

Definition qemu_plugin_tb_n_insns (tb : qemu_plugin_tb) : nat := length tb.

Definition qemu_plugin_tb_get_insn (tb : qemu_plugin_tb) (i : nat)
  : option qemu_plugin_insn :=
  d <- nth_error tb i ;; Some (mkInsn i d).

Record qemu_info_t : Type := mkInfo {
  target_name : string;
  system_emulation : bool;
  max_vcpus : Z
}.

(** ** Global plugin state *)

Record plugin_state_t : Type := mkState {
  dump_file : option FILE;          (* Dump file for cache trace *)
  is_capturing : bool;              (* Are we capturing cache trace? *)
  rw : qemu_plugin_mem_rw;          (* Capture r or w? *)
  trans_captured : Z                (* How many transactions have been captured? *)
}.

(** The plugin's own functions, as the emulator holds them once registered. *)
Inductive callback : Type :=
| Cb_vcpu_init
| Cb_vcpu_magic_insn_exec
| Cb_vcpu_mem_access
| Cb_vcpu_tb_trans
| Cb_plugin_exit.

(** One call of a [qemu_plugin_register_*] function. *)
Inductive registration : Type :=
| Reg_vcpu_init_cb (id : Z) (cb : callback)
| Reg_vcpu_tb_trans_cb (id : Z) (cb : callback)
| Reg_atexit_cb (id : Z) (cb : callback)
| Reg_vcpu_insn_exec_cb (insn : qemu_plugin_insn) (cb : callback)
    (flags : qemu_plugin_cb_flags)
| Reg_vcpu_mem_cb (insn : qemu_plugin_insn) (cb : callback)
    (flags : qemu_plugin_cb_flags) (filter : qemu_plugin_mem_rw).

(** Everything the plugin can change: its state, the text given to
    [qemu_plugin_outs], the text printed on [stderr], and the emulator's
    callback tables (in registration order). *)
Record world : Type := mkWorld {
  plugin_state : plugin_state_t;
  plugin_outs : list string;
  stderr_outs : list string;
  registered : list registration
}.

Definition set_plugin_state (st : plugin_state_t) (w : world) : world :=
  mkWorld st (plugin_outs w) (stderr_outs w) (registered w).

Definition set_dump_file (f : option FILE) (w : world) : world :=
  let st := plugin_state w in
  set_plugin_state (mkState f (is_capturing st) (rw st) (trans_captured st)) w.

Definition qemu_plugin_outs (s : string) (w : world) : world :=
  mkWorld (plugin_state w) (plugin_outs w ++ [s]) (stderr_outs w) (registered w).

Definition eprint (s : string) (w : world) : world :=
  mkWorld (plugin_state w) (plugin_outs w) (stderr_outs w ++ [s]) (registered w).

Definition register (r : registration) (w : world) : world :=
  mkWorld (plugin_state w) (plugin_outs w) (stderr_outs w) (registered w ++ [r]).

(** Static storage before [qemu_plugin_install] runs: NULL, false, 0.  [rw]
    is assigned before it is ever read, so its value here is immaterial. *)
Definition plugin_state_at_load : plugin_state_t :=
  mkState None false QEMU_PLUGIN_MEM_R 0.

Definition world_at_load : world := mkWorld plugin_state_at_load [] [] [].

(** ** Plugin callback functions *)

Section Callbacks.
Context {host : Host}.

(** Event: On VCPU initialization *)
Definition cb_vcpu_init (id : Z) (vcpu_index : nat) (w : world) : option world :=
  Some w.

(** Event: On magic instruction execution *)
Definition cb_vcpu_magic_insn_exec (cpu_index : nat) (w : world) : option world :=
  let st := plugin_state w in
  let st' := mkState (dump_file st) (negb (is_capturing st)) (rw st)
                     (trans_captured st) in
  let w := set_plugin_state st' w in
  let w := qemu_plugin_outs ("Magic instruction executed" ++ nl) w in
  if is_capturing (plugin_state w) then
    Some (qemu_plugin_outs ("Start capturing cache trace" ++ nl) w)
  else
    let w := qemu_plugin_outs ("Stopped capturing cache trace" ++ nl) w in
    let msg := ("Number of transactions captured: "
                ++ PRIu64 (trans_captured (plugin_state w)) ++ nl)%string in
    Some (qemu_plugin_outs msg w).

(** Event: On memory access.  [write_ok] is the outcome of the [fwrite],
    should the callback reach it. *)
Definition cb_vcpu_mem_access (write_ok : bool) (vcpu_index : nat)
    (info : qemu_plugin_meminfo_t) (vaddr : Z) (w : world) : option world :=
  let st := plugin_state w in
  if negb (is_capturing st) then Some w
  else
    match qemu_plugin_get_hwaddr info vaddr with
    | None => Some w
    | Some hwaddr =>
        if qemu_plugin_hwaddr_is_io hwaddr then Some w
        else
          let physical_addr := wrap64 (qemu_plugin_hwaddr_phys_addr hwaddr) in
          (* Dump the memory access to the file *)
          '(_, f) <- fwrite write_ok (bytes_of_uint64 physical_addr)
                            (dump_file st) ;;
          Some (set_plugin_state
                  (mkState (Some f) (is_capturing st) (rw st)
                           (wrap64 (trans_captured st + 1))) w)
    end.

(** The body of the [for] loop of [cb_vcpu_tb_trans], with [k = n - i]
    iterations left to run. *)
Fixpoint tb_trans_loop (tb : qemu_plugin_tb) (k i : nat) (w : world)
  {struct k} : option world :=
  match k with
  | O => Some w
  | S k' =>
      insn <- qemu_plugin_tb_get_insn tb i ;;
      b <- is_magic_inst (qemu_plugin_insn_data insn)
                         (qemu_plugin_insn_size insn) ;;
      if b then
        (* the magic instruction: register a callback *)
        tb_trans_loop tb k' (S i)
          (register (Reg_vcpu_insn_exec_cb insn Cb_vcpu_magic_insn_exec
                                           QEMU_PLUGIN_CB_NO_REGS) w)
      else
        (* Otherwise, just capture the (data) memory access *)
        tb_trans_loop tb k' (S i)
          (register (Reg_vcpu_mem_cb insn Cb_vcpu_mem_access
                                     QEMU_PLUGIN_CB_NO_REGS
                                     (rw (plugin_state w))) w)
  end.

(** Event: On translation block new translation *)
Definition cb_vcpu_tb_trans (id : Z) (tb : qemu_plugin_tb) (w : world)
  : option world :=
  let n := qemu_plugin_tb_n_insns tb in
  tb_trans_loop tb n 0 w.

(** Event: On plugin exit.  [seek_ok] and [write_ok] are the outcomes of the
    [fseek] and of the [fwrite]. *)
Definition cb_plugin_exit (seek_ok write_ok : bool) (id : Z) (w : world)
  : option world :=
  let st := plugin_state w in
  (* the number of transactions captured goes to the beginning of the file *)
  '(_, f) <- fseek seek_ok (dump_file st) 0 ;;
  '(_, f) <- fwrite write_ok (bytes_of_uint64 (trans_captured st)) (Some f) ;;
  (* Close the dump file *)
  '(_, f) <- fclose (Some f) ;;
  Some (set_dump_file (Some f) w).

(** ** Plugin registration *)

(** The option loop of [qemu_plugin_install]: [Some ret] in the first
    component is an early [return ret]. *)
Fixpoint install_options (argv : list string) (w : world)
  : option (option Z * world) :=
  match argv with
  | [] => Some (None, w)
  | opt :: rest =>
      let parts := g_strsplit opt "="%char in
      if g_strcmp0 (nth_error parts 0) (Some "dump"%string) =? 0 then
        fo <- fopen (nth_error parts 1) ;;
        let w := set_dump_file fo w in
        match fo with
        | Some _ => install_options rest w
        | None =>
            path <- nth_error parts 1 ;;
            Some (Some (-1),
                  eprint ("Failed to open dump file: " ++ path ++ nl) w)
        end
      else
        Some (Some (-1), eprint ("Unknown option: " ++ opt ++ nl) w)
  end.

(** This function is called when the plugin is loaded.  [header_ok] is the
    outcome of the [fwrite] of the placeholder header. *)
Definition qemu_plugin_install (header_ok : bool) (id : Z) (info : qemu_info_t)
    (argv : list string) (w : world) : option (Z * world) :=
  (* Parse the command line options *)
  '(r, w) <- install_options argv w ;;
  match r with
  | Some ret => Some (ret, w)
  | None =>
      (* Sanity check the options *)
      match dump_file (plugin_state w) with
      | None => Some (-1, eprint ("Missing required option: dump" ++ nl) w)
      | Some _ =>
          if negb (system_emulation info) then
            Some (-1, eprint ("This plugin is for system emulation only" ++ nl) w)
          else if max_vcpus info >? 1 then
            Some (-1, eprint ("This plugin is for single-CPU emulation only" ++ nl) w)
          else if negb (g_strcmp0 (Some (target_name info))
                                  (Some "x86_64"%string) =? 0) then
            Some (-1,
                  eprint ("This plugin is for x86_64 target only" ++ nl)
                    (eprint ("Unsupported target: " ++ target_name info ++ nl) w))
          else
            (* Set up the plugin state *)
            let st := plugin_state w in
            let w := set_plugin_state
                       (mkState (dump_file st) false QEMU_PLUGIN_MEM_RW 0) w in
            let w := qemu_plugin_outs ("Initialized cache trace plugin" ++ nl) w in
            (* empty bytes at the beginning of the dump file, for the count *)
            let zero := 0 in
            '(_, f) <- fwrite header_ok (bytes_of_uint64 zero)
                              (dump_file (plugin_state w)) ;;
            let w := set_dump_file (Some f) w in
            (* Register init, translation block and exit callbacks *)
            let w := register (Reg_vcpu_init_cb id Cb_vcpu_init) w in
            let w := register (Reg_vcpu_tb_trans_cb id Cb_vcpu_tb_trans) w in
            let w := register (Reg_atexit_cb id Cb_plugin_exit) w in
            Some (0, w)
      end
  end.

(** ** Runs *)

(** What the emulator does between load and exit: it calls back. *)
Inductive event : Type :=
| Ev_vcpu_init (id : Z) (vcpu_index : nat)
| Ev_tb_trans (id : Z) (tb : qemu_plugin_tb)
| Ev_magic_insn_exec (cpu_index : nat)
| Ev_mem_access (write_ok : bool) (vcpu_index : nat)
    (info : qemu_plugin_meminfo_t) (vaddr : Z).

Definition dispatch (e : event) (w : world) : option world :=
  match e with
  | Ev_vcpu_init id i => cb_vcpu_init id i w
  | Ev_tb_trans id tb => cb_vcpu_tb_trans id tb w
  | Ev_magic_insn_exec i => cb_vcpu_magic_insn_exec i w
  | Ev_mem_access ok i info vaddr => cb_vcpu_mem_access ok i info vaddr w
  end.

Fixpoint run (evs : list event) (w : world) : option world :=
  match evs with
  | [] => Some w
  | e :: evs' => w' <- dispatch e w ;; run evs' w'
  end.

End Callbacks.

(** ** Vocabulary of the statements *)

Section Vocabulary.
Context {host : Host}.

(** Number of executions of the magic instruction in a run. *)
Fixpoint toggles (evs : list event) : nat :=
  match evs with
  | [] => O
  | Ev_magic_insn_exec _ :: evs' => S (toggles evs')
  | _ :: evs' => toggles evs'
  end.

(** Every [fwrite] of the run succeeds. *)
Definition writes_succeed (evs : list event) : bool :=
  forallb (fun e => match e with
                    | Ev_mem_access ok _ _ _ => ok
                    | _ => true
                    end) evs.

(** The physical address of an access that resolves to memory that is not
    an IO region. *)
Definition memory_backed (info : qemu_plugin_meminfo_t) (vaddr : Z) : option Z :=
  match qemu_plugin_get_hwaddr info vaddr with
  | Some hwaddr =>
      if qemu_plugin_hwaddr_is_io hwaddr then None
      else Some (wrap64 (qemu_plugin_hwaddr_phys_addr hwaddr))
  | None => None
  end.

(** The trace a run is expected to leave, in the words of the specification
    (sec. 4.4 and 8): the physical addresses, in the order of the accesses,
    of the memory-backed accesses made while capture is on.  [capturing] is
    the flag when the run starts. *)
Fixpoint expected_trace (evs : list event) (capturing : bool) : list Z :=
  match evs with
  | [] => []
  | Ev_magic_insn_exec _ :: evs' => expected_trace evs' (negb capturing)
  | Ev_mem_access _ _ info vaddr :: evs' =>
      match capturing, memory_backed info vaddr with
      | true, Some a => a :: expected_trace evs' capturing
      | _, _ => expected_trace evs' capturing
      end
  | _ :: evs' => expected_trace evs' capturing
  end.

(** The records of a trace, as bytes. *)
Definition records (addrs : list Z) : list byte :=
  concat (map bytes_of_uint64 addrs).

(** The world after a run that goes through. *)
Definition after (evs : list event) (w : world) : world :=
  match run evs w with
  | Some w' => w'
  | None => w
  end.

End Vocabulary.

(** The command line option that names the dump file. *)
Definition dump_option (path : string) : string := ("dump=" ++ path)%string.

(** The registrations that name the instruction at position [i] of a block. *)
Definition registered_for (i : nat) (r : registration) : bool :=
  match r with
  | Reg_vcpu_insn_exec_cb insn _ _ => Nat.eqb (insn_index insn) i
  | Reg_vcpu_mem_cb insn _ _ _ => Nat.eqb (insn_index insn) i
  | _ => false
  end.

(** What one iteration of the loop of [cb_vcpu_tb_trans] registers for
    [insn], and what the iterations from position [i] on register. *)
Definition hook (filter : qemu_plugin_mem_rw) (insn : qemu_plugin_insn)
  : registration :=
  match is_magic_inst (qemu_plugin_insn_data insn)
                      (qemu_plugin_insn_size insn) with
  | Some true =>
      Reg_vcpu_insn_exec_cb insn Cb_vcpu_magic_insn_exec QEMU_PLUGIN_CB_NO_REGS
  | _ => Reg_vcpu_mem_cb insn Cb_vcpu_mem_access QEMU_PLUGIN_CB_NO_REGS filter
  end.

Fixpoint hooks_from (filter : qemu_plugin_mem_rw) (i : nat)
    (l : list (list byte)) : list registration :=
  match l with
  | [] => []
  | d :: l' => hook filter (mkInsn i d) :: hooks_from filter (S i) l'
  end.

(** The sink is usable and positioned at the end of the file, and the counter
    is a [uint64_t]. *)
Definition plugin_ready (w : world) : Prop :=
  (exists f, dump_file (plugin_state w) = Some f /\ f_open f = true /\
             f_pos f = length (f_data f)) /\
  0 <= trans_captured (plugin_state w) < 2 ^ 64.

(** The sink is usable, wherever it is positioned, and the counter is a
    [uint64_t]. *)
Definition plugin_live (w : world) : Prop :=
  (exists f, dump_file (plugin_state w) = Some f /\ f_open f = true) /\
  0 <= trans_captured (plugin_state w) < 2 ^ 64.

(** The world a successful startup leaves behind. *)
Definition installed `{Host} (header_ok : bool) (id : Z) (p : string)
    (w : world) : world :=
  mkWorld
    (mkState
       (Some (if header_ok then mkFILE p (bytes_of_uint64 0) 8 false true
              else
                let left := failed_write [] 0 (bytes_of_uint64 0) in
                mkFILE p (fst left) (snd left) true true))
       false QEMU_PLUGIN_MEM_RW 0)
    (plugin_outs w ++ [("Initialized cache trace plugin" ++ nl)%string])
    (stderr_outs w)
    (registered w ++ [Reg_vcpu_init_cb id Cb_vcpu_init;
                      Reg_vcpu_tb_trans_cb id Cb_vcpu_tb_trans;
                      Reg_atexit_cb id Cb_plugin_exit]).

(** A host for the examples: guest addresses below zero do not resolve, the
    others map to themselves, the page at [0xfee00000] and above is IO; every
    path but the empty one opens; an operation that fails leaves the file and
    the position as they were. *)
Definition flat_host : Host := {|
  qemu_plugin_meminfo_t := unit;
  qemu_plugin_hwaddr := Z;
  qemu_plugin_get_hwaddr := fun _ vaddr => if vaddr <? 0 then None else Some vaddr;
  qemu_plugin_hwaddr_is_io := fun p => 0xfee00000 <=? p;
  qemu_plugin_hwaddr_phys_addr := fun p => p;
  can_open := fun p => negb (String.eqb p EmptyString);
  failed_write := fun data pos _ => (data, pos);
  failed_seek := fun data pos => (data, pos)
|}.

Definition x86_64_system : qemu_info_t := mkInfo "x86_64" true 1.

(** A startup on [flat_host], the state after one execution of the magic
    instruction, and a run that opens a capture window, makes four accesses
    in it (of which one does not resolve and one is IO), closes it, and makes
    one more access. *)
Definition demo_argv : list string := [dump_option "trace.bin"].

Definition demo_installed : world :=
  installed (H := flat_host) true 0 "trace.bin" world_at_load.

Definition demo_access (write_ok : bool) (vaddr : Z) : @event flat_host :=
  @Ev_mem_access flat_host write_ok 0 tt vaddr.

Definition demo_toggle : list (@event flat_host) := [Ev_magic_insn_exec 0].

Definition demo_capturing : world := after demo_toggle demo_installed.

Definition demo_run : list (@event flat_host) :=
  [Ev_magic_insn_exec 0;
   demo_access true 4096;
   demo_access true (-1);
   demo_access true 0xfee00000;
   demo_access true 8192;
   Ev_magic_insn_exec 0;
   demo_access true 12288].

(** ** Vocabulary of the further statements *)



(** The sink after the option loop has gone through the dump options of
    [paths], all of which open: the stream of the last one, or what was there
    when there is none. *)
Definition sink_after (paths : list string) (w : world) : option FILE :=
  match paths with
  | [] => dump_file (plugin_state w)
  | _ => Some (mkFILE (last paths EmptyString) [] 0 false true)
  end.

(** Two block instructions for the examples: a [nop], and the magic pattern
    with one more byte after it. *)
Definition demo_block : qemu_plugin_tb :=
  [[x90]; MAGIC_INST; MAGIC_INST ++ [x90]].

(** A run of [flat_host] in which the second of three recorded accesses
    fails to be written. *)
Definition demo_lossy_run : list (@event flat_host) :=
  [Ev_magic_insn_exec 0;
   demo_access true 4096;
   demo_access false 8192;
   demo_access true 12288].

(** * Properties *)

(** ** Bytes of a [uint64_t] *)

Lemma length_bytes_of_uint64 (z : Z) : length (bytes_of_uint64 z) = 8%nat.
Proof. apply length_le_split. Qed.

Lemma uint64_of_bytes_of_uint64 (z : Z) :
  uint64_of_bytes (bytes_of_uint64 z) = wrap64 z.
Proof. unfold uint64_of_bytes, bytes_of_uint64. now rewrite le_combine_split. Qed.

Lemma wrap64_small (z : Z) : 0 <= z < 2 ^ 64 -> wrap64 z = z.
Proof. intros Hz. unfold wrap64. now apply Z.mod_small. Qed.

Lemma wrap64_range (z : Z) : 0 <= wrap64 z < 2 ^ 64.
Proof. unfold wrap64. apply Z.mod_pos_bound. lia. Qed.

(** ** The instruction matcher *)

Lemma sizeof_MAGIC_INST_10 : sizeof_MAGIC_INST = 10%nat.
Proof. reflexivity. Qed.

Lemma memcmp_in_bounds (n : nat) : forall s1 s2 : list byte,
  (n <= length s1)%nat -> (n <= length s2)%nat ->
  exists r, memcmp s1 s2 n = Some r.
Proof.
  induction n as [|n IH]; intros s1 s2 H1 H2; simpl.
  - now exists 0.
  - destruct s1 as [|a s1]; [simpl in H1; lia|].
    destruct s2 as [|b s2]; [simpl in H2; lia|].
    simpl in H1, H2. destruct (Byte.eqb a b).
    + apply IH; lia.
    + eauto.
Qed.

Lemma byte_unsigned_diff (a b : byte) :
  Byte.eqb a b = false -> byte.unsigned a - byte.unsigned b <> 0.
Proof.
  intros Hab Hz. apply Byte.eqb_false in Hab. apply Hab.
  apply byte.unsigned_inj. lia.
Qed.

(** [memcmp] answers zero exactly when the first [n] bytes agree. *)
Lemma memcmp_zero_iff (n : nat) : forall s1 s2 : list byte,
  memcmp s1 s2 n = Some 0 <->
  (n <= length s1)%nat /\ (n <= length s2)%nat /\ firstn n s1 = firstn n s2.
Proof.
  induction n as [|n IH]; intros s1 s2; simpl.
  - split; [intros _; repeat split; lia | reflexivity].
  - destruct s1 as [|a s1], s2 as [|b s2]; simpl;
      try (split; [discriminate | intros (H1 & H2 & _); simpl in *; lia]).
    destruct (Byte.eqb a b) eqn:Hab.
    + apply Byte.byte_dec_bl in Hab. subst b. rewrite IH. split.
      * intros (H1 & H2 & H3). repeat split; try lia. now f_equal.
      * intros (H1 & H2 & H3). repeat split; try lia. now injection H3.
    + split.
      * intros H. injection H as H. now apply byte_unsigned_diff in Hab.
      * intros (_ & _ & H). injection H as H _. subst b.
        rewrite (Byte.byte_dec_lb eq_refl) in Hab. discriminate.
Qed.

(** On a buffer that holds [size] bytes the matcher always answers, and it
    answers true exactly on the pattern. *)
Lemma is_magic_inst_true_iff (data : list byte) (size : nat) :
  is_magic_inst data size = Some true <->
  size = sizeof_MAGIC_INST /\ firstn size data = MAGIC_INST.
Proof.
  unfold is_magic_inst. destruct (Nat.eqb_spec size sizeof_MAGIC_INST) as [->|Hne].
  - destruct (memcmp data MAGIC_INST sizeof_MAGIC_INST) as [r|] eqn:Hm;
      cbn [bind].
    + split.
      * intros H. injection H as H. apply Z.eqb_eq in H. subst r.
        apply memcmp_zero_iff in Hm. destruct Hm as (_ & _ & Hm).
        split; [reflexivity|]. rewrite Hm. reflexivity.
      * intros (_ & Hd).
        assert (Hz : memcmp data MAGIC_INST sizeof_MAGIC_INST = Some 0).
        { apply memcmp_zero_iff.
          pose proof (f_equal (@length byte) Hd) as Hl.
          rewrite length_firstn in Hl. fold sizeof_MAGIC_INST in Hl.
          repeat split; [lia | reflexivity | now rewrite Hd]. }
        rewrite Hz in Hm. injection Hm as <-. reflexivity.
    + split; [discriminate|]. intros (_ & Hd). exfalso.
      pose proof (f_equal (@length byte) Hd) as Hl.
      rewrite length_firstn in Hl. fold sizeof_MAGIC_INST in Hl.
      destruct (memcmp_in_bounds sizeof_MAGIC_INST data MAGIC_INST) as [r Hr];
        [lia | reflexivity | congruence].
  - split; [discriminate | intros (H & _); contradiction].
Qed.

Example is_magic_inst_pattern :
  is_magic_inst MAGIC_INST 10 = Some true.
Proof. reflexivity. Qed.

Example is_magic_inst_short :
  is_magic_inst [x48; xb8] 2 = Some false.
Proof. reflexivity. Qed.

Example is_magic_inst_last_byte :
  is_magic_inst [x48; xb8; xef; xbe; xad; xde; xbe; xba; xfe; xcb] 10
  = Some false.
Proof. reflexivity. Qed.

Lemma is_magic_inst_total (data : list byte) (size : nat) :
  (size <= length data)%nat -> exists b, is_magic_inst data size = Some b.
Proof.
  intros Hsz. unfold is_magic_inst.
  destruct (Nat.eqb_spec size sizeof_MAGIC_INST) as [->|Hne]; [|eauto].
  destruct (memcmp_in_bounds sizeof_MAGIC_INST data MAGIC_INST) as [r Hr];
    [assumption | reflexivity |].
  rewrite Hr. cbn [bind]. eauto.
Qed.

Lemma is_magic_inst_false_iff (data : list byte) (size : nat) :
  (size <= length data)%nat ->
  is_magic_inst data size = Some false <->
  ~ (size = sizeof_MAGIC_INST /\ firstn size data = MAGIC_INST).
Proof.
  intros Hsz. rewrite <- is_magic_inst_true_iff.
  destruct (is_magic_inst_total data size Hsz) as [[|] Hb]; rewrite Hb.
  - split; [discriminate | intros H; now contradiction H].
  - split; [discriminate | reflexivity].
Qed.

(** C5.  For every buffer [data] holding at least [size] bytes,
    [is_magic_inst data size] returns, and it returns true if and only if
    [size] is the length of the magic pattern, which is 10, and the [size]
    bytes are the bytes of the pattern; a different size gives false and so
    does a single byte that differs from the pattern's.  The function is a
    pure function of its two arguments: it reads no state and changes none. *)
Theorem is_magic_inst_correct (data : list byte) (size : nat) :
  (size <= length data)%nat ->
  sizeof_MAGIC_INST = 10%nat /\
  (exists b, is_magic_inst data size = Some b) /\
  (is_magic_inst data size = Some true <->
   size = 10%nat /\ firstn size data = MAGIC_INST) /\
  (size <> 10%nat -> is_magic_inst data size = Some false) /\
  (forall i, (i < 10)%nat -> nth_error data i <> nth_error MAGIC_INST i ->
             is_magic_inst data size = Some false).
Proof.
  intros Hsz. split; [reflexivity|].
  split; [now apply is_magic_inst_total|].
  split; [apply is_magic_inst_true_iff|].
  split.
  - intros Hne. apply is_magic_inst_false_iff; [assumption|].
    intros (H & _). now apply Hne.
  - intros i Hi Hnth. apply is_magic_inst_false_iff; [assumption|].
    intros (Hs & Hd). apply Hnth. rewrite <- Hd, Hs.
    rewrite nth_error_firstn.
    now replace (i <? sizeof_MAGIC_INST)%nat with true
      by (symmetry; apply Nat.ltb_lt; exact Hi).
Qed.

Lemma is_magic_inst_correct_witness :
  (10 <= length MAGIC_INST)%nat /\
  (is_magic_inst MAGIC_INST 10 = Some true <->
   10%nat = 10%nat /\ firstn 10 MAGIC_INST = MAGIC_INST).
Proof.
  split; [apply Nat.le_refl|].
  exact (proj1 (proj2 (proj2
           (is_magic_inst_correct MAGIC_INST 10 (Nat.le_refl 10))))).
Defined.

(** ** The translation-block instrumenter *)

Lemma skipn_cons_nth {A : Type} (i : nat) : forall (l : list A) d l',
  skipn i l = d :: l' -> nth_error l i = Some d /\ skipn (S i) l = l'.
Proof.
  induction i as [|i IH]; intros [|a l] d l' H; simpl in H; try discriminate.
  - injection H as -> ->. now split.
  - apply IH in H. exact H.
Qed.

Lemma hook_cases (filter : qemu_plugin_mem_rw) (i : nat) (d : list byte) :
  is_magic_inst d (length d) = Some true /\
  hook filter (mkInsn i d) =
    Reg_vcpu_insn_exec_cb (mkInsn i d) Cb_vcpu_magic_insn_exec
                          QEMU_PLUGIN_CB_NO_REGS
  \/
  is_magic_inst d (length d) = Some false /\
  hook filter (mkInsn i d) =
    Reg_vcpu_mem_cb (mkInsn i d) Cb_vcpu_mem_access QEMU_PLUGIN_CB_NO_REGS filter.
Proof.
  unfold hook, qemu_plugin_insn_data, qemu_plugin_insn_size. cbn [insn_bytes].
  destruct (is_magic_inst_total d (length d) (Nat.le_refl _)) as [[|] Hb];
    rewrite Hb; [left | right]; now split.
Qed.

Lemma hook_index (filter : qemu_plugin_mem_rw) (i j : nat) (d : list byte) :
  registered_for j (hook filter (mkInsn i d)) = Nat.eqb i j.
Proof.
  destruct (hook_cases filter i d) as [(_ & ->) | (_ & ->)]; reflexivity.
Qed.

Lemma length_hooks_from (filter : qemu_plugin_mem_rw) (l : list (list byte)) :
  forall i, length (hooks_from filter i l) = length l.
Proof. induction l as [|d l IH]; intros i; simpl; [|rewrite IH]; reflexivity. Qed.

Lemma nth_error_hooks_from (filter : qemu_plugin_mem_rw) (l : list (list byte)) :
  forall i j d, nth_error l j = Some d ->
  nth_error (hooks_from filter i l) j = Some (hook filter (mkInsn (i + j) d)).
Proof.
  induction l as [|a l IH]; intros i [|j] d H; simpl in H; try discriminate.
  - injection H as ->. simpl. now rewrite Nat.add_0_r.
  - simpl. rewrite (IH (S i) j d H). do 3 f_equal. lia.
Qed.

(** Positions below the first one of the range get no registration. *)
Lemma filter_hooks_from_below (filter : qemu_plugin_mem_rw)
    (l : list (list byte)) :
  forall i j, (j < i)%nat ->
  List.filter (registered_for j) (hooks_from filter i l) = [].
Proof.
  induction l as [|a l IH]; intros i j Hj; simpl; [reflexivity|].
  rewrite hook_index. destruct (Nat.eqb_spec i j) as [->|_]; [lia|].
  apply IH. lia.
Qed.

(** Each position of the range gets the registration of its instruction and
    no other. *)
Lemma filter_hooks_from (filter : qemu_plugin_mem_rw) (l : list (list byte)) :
  forall i j d, nth_error l j = Some d ->
  List.filter (registered_for (i + j)) (hooks_from filter i l)
  = [hook filter (mkInsn (i + j) d)].
Proof.
  induction l as [|a l IH]; intros i [|j] d H; simpl in H; try discriminate.
  - injection H as ->. simpl. rewrite hook_index, Nat.add_0_r, Nat.eqb_refl.
    f_equal. apply filter_hooks_from_below. lia.
  - simpl. rewrite hook_index.
    destruct (Nat.eqb_spec i (i + S j)) as [Heq|_]; [lia|].
    replace (i + S j)%nat with (S i + j)%nat by lia. now apply IH.
Qed.

Section Instrumenter.
Context {host : Host}.

Lemma tb_trans_loop_hooks (tb : qemu_plugin_tb) (l : list (list byte)) :
  forall i w, skipn i tb = l ->
  tb_trans_loop tb (length l) i w
  = Some (mkWorld (plugin_state w) (plugin_outs w) (stderr_outs w)
            (registered w ++ hooks_from (rw (plugin_state w)) i l)).
Proof.
  induction l as [|d l IH]; intros i w Hskip.
  - simpl. rewrite app_nil_r. now destruct w.
  - apply skipn_cons_nth in Hskip. destruct Hskip as (Hnth & Hskip).
    cbn [length tb_trans_loop hooks_from].
    unfold qemu_plugin_tb_get_insn. rewrite Hnth. cbn [bind].
    destruct (hook_cases (rw (plugin_state w)) i d) as [(Hb & Hh) | (Hb & Hh)];
      unfold qemu_plugin_insn_data, qemu_plugin_insn_size; cbn [insn_bytes];
      rewrite Hb, Hh; cbn [bind];
      rewrite (IH (S i) _ Hskip); unfold register;
      cbn [plugin_state plugin_outs stderr_outs registered];
      now rewrite <- app_assoc.
Qed.

(** The instrumenter always returns; it adds one registration per
    instruction, in block order, and changes nothing else. *)
Lemma cb_vcpu_tb_trans_hooks (id : Z) (tb : qemu_plugin_tb) (w : world) :
  cb_vcpu_tb_trans id tb w
  = Some (mkWorld (plugin_state w) (plugin_outs w) (stderr_outs w)
            (registered w ++ hooks_from (rw (plugin_state w)) 0 tb)).
Proof. unfold cb_vcpu_tb_trans, qemu_plugin_tb_n_insns. now apply tb_trans_loop_hooks. Qed.

(** C6.  [cb_vcpu_tb_trans] returns for every block.  It appends to the
    emulator's tables one registration per instruction of the block, in block
    order: for the instruction at position [i], the instruction-executed
    callback [cb_vcpu_magic_insn_exec] when its bytes match the magic pattern,
    and otherwise the memory callback [cb_vcpu_mem_access] with the filter
    held in [plugin_state.rw]; in both cases this registration is the only
    one the call makes for that instruction (so a magic instruction gets no
    memory hook).  [plugin_state] and the two output channels are left as
    they were. *)
Theorem cb_vcpu_tb_trans_one_hook_each (id : Z) (tb : qemu_plugin_tb) (w : world) :
  exists added,
    cb_vcpu_tb_trans id tb w
    = Some (mkWorld (plugin_state w) (plugin_outs w) (stderr_outs w)
              (registered w ++ added)) /\
    length added = length tb /\
    forall i d, nth_error tb i = Some d ->
      let insn := mkInsn i d in
      exists r,
        nth_error added i = Some r /\
        List.filter (registered_for i) added = [r] /\
        (is_magic_inst (qemu_plugin_insn_data insn) (qemu_plugin_insn_size insn)
           = Some true /\
         r = Reg_vcpu_insn_exec_cb insn Cb_vcpu_magic_insn_exec
                                   QEMU_PLUGIN_CB_NO_REGS
         \/
         is_magic_inst (qemu_plugin_insn_data insn) (qemu_plugin_insn_size insn)
           = Some false /\
         r = Reg_vcpu_mem_cb insn Cb_vcpu_mem_access QEMU_PLUGIN_CB_NO_REGS
                             (rw (plugin_state w))).
Proof.
  exists (hooks_from (rw (plugin_state w)) 0 tb).
  split; [apply cb_vcpu_tb_trans_hooks|].
  split; [apply length_hooks_from|].
  intros i d Hnth insn. exists (hook (rw (plugin_state w)) insn).
  split; [exact (nth_error_hooks_from _ tb 0 i d Hnth)|].
  split; [exact (filter_hooks_from _ tb 0 i d Hnth)|].
  apply hook_cases.
Qed.

End Instrumenter.

(** ** The toggle callback *)

Section Toggle.
Context {host : Host}.

(** The toggle callback as one equation. *)
Lemma cb_vcpu_magic_insn_exec_eq (cpu_index : nat) (w : world) :
  let st := plugin_state w in
  cb_vcpu_magic_insn_exec cpu_index w
  = Some (mkWorld
            (mkState (dump_file st) (negb (is_capturing st)) (rw st)
                     (trans_captured st))
            (plugin_outs w ++
             ("Magic instruction executed" ++ nl)%string ::
             (if negb (is_capturing st) then
                [("Start capturing cache trace" ++ nl)%string]
              else
                [("Stopped capturing cache trace" ++ nl)%string;
                 ("Number of transactions captured: "
                  ++ PRIu64 (trans_captured st) ++ nl)%string]))
            (stderr_outs w) (registered w)).
Proof.
  destruct w as [[f c r n] outs errs regs].
  unfold cb_vcpu_magic_insn_exec, set_plugin_state, qemu_plugin_outs.
  cbn [plugin_state plugin_outs stderr_outs registered
       dump_file is_capturing rw trans_captured].
  destruct c; cbn [negb]; rewrite <- ?app_assoc; reflexivity.
Qed.

(** C9.  [cb_vcpu_magic_insn_exec] always returns.  It negates
    [is_capturing] and leaves the other three fields of [plugin_state] as
    they were: [trans_captured], [rw], and [dump_file] (the stream with its
    contents and its position).  Nothing is printed on [stderr] and nothing is
    registered.  Its output through [qemu_plugin_outs] is the line announcing
    the magic instruction followed by the start line when capture is now on,
    and by the stop line and a line with the current [trans_captured] when
    capture is now off. *)
Theorem cb_vcpu_magic_insn_exec_frame (cpu_index : nat) (w : world) :
  exists w',
    cb_vcpu_magic_insn_exec cpu_index w = Some w' /\
    is_capturing (plugin_state w') = negb (is_capturing (plugin_state w)) /\
    trans_captured (plugin_state w') = trans_captured (plugin_state w) /\
    dump_file (plugin_state w') = dump_file (plugin_state w) /\
    rw (plugin_state w') = rw (plugin_state w) /\
    stderr_outs w' = stderr_outs w /\
    registered w' = registered w /\
    plugin_outs w' =
      plugin_outs w ++
      ("Magic instruction executed" ++ nl)%string ::
      (if is_capturing (plugin_state w') then
         [("Start capturing cache trace" ++ nl)%string]
       else
         [("Stopped capturing cache trace" ++ nl)%string;
          ("Number of transactions captured: "
           ++ PRIu64 (trans_captured (plugin_state w')) ++ nl)%string]).
Proof.
  eexists. split; [apply cb_vcpu_magic_insn_exec_eq|].
  cbn [plugin_state plugin_outs stderr_outs registered
       dump_file is_capturing rw trans_captured].
  repeat split; reflexivity.
Qed.

End Toggle.

(** ** The sink *)

Lemma put_bytes_at_end (buf data : list byte) :
  put_bytes (length data) buf data = data ++ buf.
Proof.
  unfold put_bytes. rewrite firstn_all, Nat.sub_diag. cbn [repeat app].
  rewrite skipn_all2 by lia. now rewrite app_nil_r.
Qed.

Lemma put_bytes_at_start (buf old rest : list byte) :
  length buf = length old ->
  put_bytes 0 buf (old ++ rest) = buf ++ rest.
Proof.
  intros Hl. unfold put_bytes. cbn [firstn Nat.sub repeat app Nat.add].
  rewrite Hl, skipn_app, skipn_all, Nat.sub_diag. reflexivity.
Qed.

Lemma length_records (addrs : list Z) :
  length (records addrs) = (8 * length addrs)%nat.
Proof.
  unfold records. induction addrs as [|a l IH]; [reflexivity|].
  cbn [map concat length]. rewrite length_app, length_bytes_of_uint64, IH. lia.
Qed.

Section Sink.
Context {host : Host}.

(** A write on a usable stream returns whatever its outcome and leaves the
    stream usable, on the same path; when it succeeds the object is stored
    at the position, which moves past it. *)
Lemma fwrite_open (ok : bool) (obj : list byte) (f : FILE) :
  f_open f = true ->
  exists n f',
    fwrite ok obj (Some f) = Some (n, f') /\
    f_open f' = true /\ f_path f' = f_path f /\
    (ok = true ->
     f_data f' = put_bytes (f_pos f) obj (f_data f) /\
     f_pos f' = (f_pos f + length obj)%nat /\
     f_error f' = f_error f).
Proof.
  intros Ho. unfold fwrite. cbn [bind]. rewrite Ho.
  destruct ok; do 2 eexists; (split; [reflexivity|]); cbn;
    repeat split; try reflexivity; discriminate.
Qed.

End Sink.

(** ** The memory access recorder *)

Section Recorder.
Context {host : Host}.

Lemma cb_vcpu_mem_access_skip (ok : bool) (i : nat)
    (info : qemu_plugin_meminfo_t) (vaddr : Z) (w : world) :
  is_capturing (plugin_state w) = false \/ memory_backed info vaddr = None ->
  cb_vcpu_mem_access ok i info vaddr w = Some w.
Proof.
  unfold cb_vcpu_mem_access, memory_backed.
  destruct (is_capturing (plugin_state w)); cbn [negb]; [|reflexivity].
  intros [H|H]; [discriminate|].
  destruct (qemu_plugin_get_hwaddr info vaddr) as [hw|]; [|reflexivity].
  destruct (qemu_plugin_hwaddr_is_io hw); [reflexivity | discriminate].
Qed.

(** A memory-backed access made while capturing, whatever the outcome of
    its write: the callback returns with the counter incremented and the
    stream still usable; when the write succeeds the record is stored at the
    position. *)
Lemma cb_vcpu_mem_access_attempt (ok : bool) (i : nat)
    (info : qemu_plugin_meminfo_t) (vaddr a : Z) (w : world) (f : FILE) :
  is_capturing (plugin_state w) = true ->
  memory_backed info vaddr = Some a ->
  dump_file (plugin_state w) = Some f ->
  f_open f = true ->
  exists f',
    cb_vcpu_mem_access ok i info vaddr w
    = Some (set_plugin_state
              (mkState (Some f') true (rw (plugin_state w))
                       (wrap64 (trans_captured (plugin_state w) + 1))) w) /\
    f_open f' = true /\ f_path f' = f_path f /\
    (ok = true ->
     f_data f' = put_bytes (f_pos f) (bytes_of_uint64 a) (f_data f) /\
     f_pos f' = (f_pos f + 8)%nat /\
     f_error f' = f_error f).
Proof.
  intros Hc Hm Hf Ho. unfold cb_vcpu_mem_access, memory_backed in *.
  rewrite Hc. cbn [negb].
  destruct (qemu_plugin_get_hwaddr info vaddr) as [hw|]; [|discriminate].
  destruct (qemu_plugin_hwaddr_is_io hw); [discriminate|].
  injection Hm as <-. rewrite Hf.
  destruct (fwrite_open ok
              (bytes_of_uint64 (wrap64 (qemu_plugin_hwaddr_phys_addr hw))) f Ho)
    as (n & f' & Hw & Ho' & Hpath & Hok).
  rewrite Hw. cbn [bind]. exists f'. split; [reflexivity|].
  split; [exact Ho'|]. split; [exact Hpath|].
  intros ->. rewrite length_bytes_of_uint64 in Hok. now apply Hok.
Qed.

(** The same access when the write succeeds and the stream is at the end:
    the record is appended. *)
Lemma cb_vcpu_mem_access_record (i : nat)
    (info : qemu_plugin_meminfo_t) (vaddr a : Z) (w : world) (f : FILE) :
  is_capturing (plugin_state w) = true ->
  memory_backed info vaddr = Some a ->
  dump_file (plugin_state w) = Some f ->
  f_open f = true -> f_pos f = length (f_data f) ->
  exists f',
    cb_vcpu_mem_access true i info vaddr w
    = Some (set_plugin_state
              (mkState (Some f') true (rw (plugin_state w))
                       (wrap64 (trans_captured (plugin_state w) + 1))) w) /\
    f_open f' = true /\ f_pos f' = length (f_data f') /\
    f_path f' = f_path f /\
    f_data f' = f_data f ++ bytes_of_uint64 a /\
    f_error f' = f_error f.
Proof.
  intros Hc Hm Hf Ho Hp.
  destruct (cb_vcpu_mem_access_attempt true i info vaddr a w f Hc Hm Hf Ho)
    as (f' & Hw & Ho' & Hpath & Hok).
  destruct (Hok eq_refl) as (Hd & Hp' & He).
  exists f'. split; [exact Hw|]. split; [exact Ho'|].
  rewrite Hp, put_bytes_at_end in Hd.
  split; [rewrite Hp', Hd, Hp, length_app, length_bytes_of_uint64;
          reflexivity|].
  now repeat split.
Qed.

Lemma cb_vcpu_mem_access_live (ok : bool) (i : nat)
    (info : qemu_plugin_meminfo_t) (vaddr : Z) (w : world) :
  plugin_live w ->
  exists w', cb_vcpu_mem_access ok i info vaddr w = Some w' /\ plugin_live w'.
Proof.
  intros Hr.
  destruct (is_capturing (plugin_state w)) eqn:Hc;
    [destruct (memory_backed info vaddr) as [a|] eqn:Hm|];
    try solve [exists w; split; [apply cb_vcpu_mem_access_skip; auto | exact Hr]].
  destruct Hr as ((f & Hf & Ho) & Hn).
  destruct (cb_vcpu_mem_access_attempt ok i info vaddr a w f Hc Hm Hf Ho)
    as (f' & Hw & Ho' & _).
  eexists. split; [exact Hw|]. split.
  - exists f'. now split.
  - apply wrap64_range.
Qed.

(** C4.  While [is_capturing] is false, [cb_vcpu_mem_access] returns at once
    whatever the access is and whatever the outcome a write would have had:
    the world after the call is the world before it, so the dump file and
    [trans_captured] are as they were. *)
Theorem cb_vcpu_mem_access_idle (ok : bool) (i : nat)
    (info : qemu_plugin_meminfo_t) (vaddr : Z) (w : world) :
  is_capturing (plugin_state w) = false ->
  cb_vcpu_mem_access ok i info vaddr w = Some w /\
  (forall w', cb_vcpu_mem_access ok i info vaddr w = Some w' ->
     dump_file (plugin_state w') = dump_file (plugin_state w) /\
     trans_captured (plugin_state w') = trans_captured (plugin_state w)).
Proof.
  intros Hc.
  assert (H : cb_vcpu_mem_access ok i info vaddr w = Some w)
    by (unfold cb_vcpu_mem_access; now rewrite Hc).
  split; [exact H|]. intros w' Hw'. rewrite H in Hw'.
  injection Hw' as <-. now split.
Qed.

(** ** Runs of callbacks *)

Lemma dispatch_live (e : event) (w : world) :
  plugin_live w -> exists w', dispatch e w = Some w' /\ plugin_live w'.
Proof.
  intros Hr. destruct e as [id i | id tb | i | ok i info vaddr]; cbn [dispatch].
  - exists w. now split.
  - eexists. split; [apply cb_vcpu_tb_trans_hooks | exact Hr].
  - eexists. split; [apply cb_vcpu_magic_insn_exec_eq | exact Hr].
  - now apply cb_vcpu_mem_access_live.
Qed.

(** From a state with a usable sink every run of callbacks goes through,
    whatever the outcomes of its writes. *)
Lemma run_live (evs : list event) : forall w,
  plugin_live w -> exists w', run evs w = Some w' /\ plugin_live w'.
Proof.
  induction evs as [|e evs IH]; intros w Hr; cbn [run].
  - exists w. now split.
  - destruct (dispatch_live e w Hr) as (w1 & Hd & Hr1).
    rewrite Hd. cbn [bind]. now apply IH.
Qed.

(** What a callback does to the flag and to the filter. *)
Lemma dispatch_flags (e : event) (w w' : world) :
  dispatch e w = Some w' ->
  rw (plugin_state w') = rw (plugin_state w) /\
  is_capturing (plugin_state w') =
    xorb (is_capturing (plugin_state w)) (Nat.odd (toggles [e])).
Proof.
  destruct e as [id i | id tb | i | ok i info vaddr]; cbn [dispatch toggles];
    intros H.
  - injection H as <-. now rewrite xorb_false_r.
  - rewrite cb_vcpu_tb_trans_hooks in H. injection H as <-.
    cbn [plugin_state]. now rewrite xorb_false_r.
  - rewrite cb_vcpu_magic_insn_exec_eq in H. injection H as <-.
    cbn [plugin_state rw is_capturing].
    split; [reflexivity|]. now destruct (is_capturing (plugin_state w)).
  - unfold cb_vcpu_mem_access in H. rewrite xorb_false_r.
    destruct (is_capturing (plugin_state w)) eqn:Hc; cbn [negb] in H;
      [|injection H as <-; now split].
    destruct (qemu_plugin_get_hwaddr info vaddr) as [hw|];
      [|injection H as <-; now split].
    destruct (qemu_plugin_hwaddr_is_io hw); [injection H as <-; now split|].
    destruct (fwrite ok _ (dump_file (plugin_state w))) as [[n f]|];
      [|discriminate].
    cbn [bind] in H. injection H as <-. cbn. now split.
Qed.

Lemma toggles_cons_parity (e : event) (evs : list event) (c : bool) :
  xorb (xorb c (Nat.odd (toggles [e]))) (Nat.odd (toggles evs))
  = xorb c (Nat.odd (toggles (e :: evs))).
Proof.
  destruct e; cbn [toggles];
    change (Nat.odd 0) with false; change (Nat.odd 1) with true;
    rewrite ?xorb_false_r; try reflexivity.
  rewrite Nat.odd_succ, <- Nat.negb_odd.
  now destruct c, (Nat.odd (toggles evs)).
Qed.

Lemma run_flags (evs : list event) : forall w w',
  run evs w = Some w' ->
  rw (plugin_state w') = rw (plugin_state w) /\
  is_capturing (plugin_state w') =
    xorb (is_capturing (plugin_state w)) (Nat.odd (toggles evs)).
Proof.
  induction evs as [|e evs IH]; intros w w' H; cbn [run] in H.
  - injection H as <-. cbn. now rewrite xorb_false_r.
  - destruct (dispatch e w) as [w1|] eqn:Hd; [|discriminate]. cbn [bind] in H.
    apply dispatch_flags in Hd. apply IH in H.
    destruct Hd as (Hrw1 & Hc1), H as (Hrw & Hc).
    split; [congruence|]. rewrite Hc, Hc1. apply toggles_cons_parity.
Qed.

End Recorder.

(** ** Startup *)

Section Startup.
Context {host : Host}.

Lemma set_dump_file_twice (f g : option FILE) (w : world) :
  set_dump_file f (set_dump_file g w) = set_dump_file f w.
Proof. reflexivity. Qed.

Lemma set_dump_file_same (w : world) :
  set_dump_file (dump_file (plugin_state w)) w = w.
Proof. now destruct w as [[f c r n] outs errs regs]. Qed.

(** An early return of the option loop is a failure. *)
Lemma install_options_return (argv : list string) : forall w ret w1,
  install_options argv w = Some (Some ret, w1) -> ret = -1.
Proof.
  induction argv as [|opt rest IH]; intros w ret w1 H; cbn [install_options] in H.
  - discriminate.
  - destruct (g_strcmp0 _ _ =? 0).
    + destruct (fopen (nth_error (g_strsplit opt "=") 1)) as [[f|]|];
        cbn [bind] in H; [now apply IH in H | | discriminate].
      destruct (nth_error (g_strsplit opt "=") 1); cbn [bind] in H;
        [now injection H | discriminate].
    + now injection H.
Qed.

(** When the option loop runs to its end it has changed nothing but
    [dump_file], which is as it was or a stream just opened. *)
Lemma install_options_fallthrough (argv : list string) : forall w w1,
  install_options argv w = Some (None, w1) ->
  w1 = set_dump_file (dump_file (plugin_state w1)) w /\
  (dump_file (plugin_state w1) = dump_file (plugin_state w) \/
   exists p, dump_file (plugin_state w1) = Some (mkFILE p [] 0 false true)).
Proof.
  induction argv as [|opt rest IH]; intros w w1 H; cbn [install_options] in H.
  - injection H as <-. split; [now rewrite set_dump_file_same | now left].
  - destruct (g_strcmp0 _ _ =? 0); [|discriminate].
    unfold fopen in H.
    destruct (nth_error (g_strsplit opt "=") 1) as [p|]; cbn [bind] in H;
      [|discriminate].
    destruct (can_open p); [|discriminate].
    apply IH in H. destruct H as (Hw1 & Hf).
    rewrite set_dump_file_twice in Hw1. split; [exact Hw1|]. right.
    destruct Hf as [Hf | Hf]; [|exact Hf].
    exists p. rewrite Hf. reflexivity.
Qed.

Lemma qemu_plugin_install_success (header_ok : bool) (id : Z)
    (info : qemu_info_t) (argv : list string) (w w0 : world) :
  dump_file (plugin_state w) = None ->
  qemu_plugin_install header_ok id info argv w = Some (0, w0) ->
  exists p, w0 = installed header_ok id p w.
Proof.
  intros Hnull H. unfold qemu_plugin_install in H.
  destruct (install_options argv w) as [[[ret|] w1]|] eqn:Hopt;
    cbn [bind] in H; [| |discriminate].
  - apply install_options_return in Hopt. subst ret. discriminate.
  - apply install_options_fallthrough in Hopt. destruct Hopt as (Hw1 & Hf).
    destruct Hf as [Hf | (p & Hf)].
    + rewrite Hf, Hnull in H. discriminate.
    + rewrite Hf in H, Hw1. rewrite Hw1 in H. clear Hw1 Hf.
      destruct (negb (system_emulation info)); [discriminate|].
      destruct (max_vcpus info >? 1); [discriminate|].
      destruct (negb _); [discriminate|].
      exists p. destruct w as [[f c r n] outs errs regs].
      unfold register, set_dump_file, set_plugin_state, qemu_plugin_outs,
        fwrite, installed in *.
      destruct header_ok; cbn in H; injection H as <-; cbn;
        now rewrite <- !app_assoc.
Qed.

Lemma installed_ready (id : Z) (p : string) (w : world) :
  plugin_ready (installed true id p w).
Proof.
  split; [|cbn; lia].
  eexists. split; [reflexivity|]. now split.
Qed.

Lemma installed_live (header_ok : bool) (id : Z) (p : string) (w : world) :
  plugin_live (installed header_ok id p w).
Proof.
  split; [|cbn; lia].
  eexists. split; [reflexivity|]. now destruct header_ok.
Qed.

End Startup.

(** ** The trace of a run *)

Section Trace.
Context {host : Host}.

Lemma wrap64_succ_add (x : Z) (n : nat) :
  wrap64 (wrap64 (x + 1) + Z.of_nat n) = wrap64 (x + Z.of_nat (S n)).
Proof.
  unfold wrap64. rewrite Zplus_mod_idemp_l. f_equal. lia.
Qed.

Lemma writes_succeed_cons (e : event) (evs : list event) :
  writes_succeed (e :: evs) = true ->
  writes_succeed evs = true /\
  forall ok i info vaddr, e = Ev_mem_access ok i info vaddr -> ok = true.
Proof.
  unfold writes_succeed. cbn [forallb]. intros H.
  apply andb_true_iff in H. destruct H as (He & Hevs).
  split; [exact Hevs|]. intros ok i info vaddr ->. exact He.
Qed.

(** When every write succeeds, a run appends to the dump file the records of
    its expected trace, in order, and counts them. *)
Lemma run_trace (evs : list event) : forall (w : world) (f : FILE),
  dump_file (plugin_state w) = Some f ->
  f_open f = true -> f_pos f = length (f_data f) ->
  0 <= trans_captured (plugin_state w) < 2 ^ 64 ->
  writes_succeed evs = true ->
  let trace := expected_trace evs (is_capturing (plugin_state w)) in
  exists w' f',
    run evs w = Some w' /\
    dump_file (plugin_state w') = Some f' /\
    f_open f' = true /\ f_pos f' = length (f_data f') /\
    f_path f' = f_path f /\ f_error f' = f_error f /\
    f_data f' = f_data f ++ records trace /\
    trans_captured (plugin_state w') =
      wrap64 (trans_captured (plugin_state w) + Z.of_nat (length trace)).
Proof.
  induction evs as [|e evs IH]; intros w f Hf Ho Hp Hn Hok; cbn zeta.
  - exists w, f. cbn [run expected_trace records map concat length].
    rewrite app_nil_r, Z.add_0_r, wrap64_small by assumption.
    now repeat split.
  - apply writes_succeed_cons in Hok. destruct Hok as (Hevs & Hok).
    cbn [run].
    destruct e as [id i | id tb | i | ok i info vaddr];
      cbn [dispatch expected_trace].
    + cbn [cb_vcpu_init bind]. now apply IH.
    + rewrite cb_vcpu_tb_trans_hooks. cbn [bind].
      now apply (IH (mkWorld (plugin_state w) _ _ _) f).
    + rewrite cb_vcpu_magic_insn_exec_eq. cbn [bind].
      match goal with
      | |- exists _ _, run _ ?w1 = _ /\ _ => apply (IH w1 f)
      end; cbn [plugin_state dump_file trans_captured]; assumption.
    + rewrite (Hok ok i info vaddr eq_refl).
      destruct (is_capturing (plugin_state w)) eqn:Hc;
        [destruct (memory_backed info vaddr) as [a|] eqn:Hm|].
      * destruct (cb_vcpu_mem_access_record i info vaddr a w f
                    Hc Hm Hf Ho Hp) as (f1 & Hw & Ho1 & Hp1 & Hpath & Hd & He).
        rewrite Hw. cbn [bind].
        match type of Hw with
        | _ = Some ?w1 =>
            destruct (IH w1 f1 eq_refl Ho1 Hp1 (wrap64_range _) Hevs)
              as (w' & f' & Hrun & Hf' & Ho' & Hp' & Hpath' & He' & Hd' & Hn')
        end.
        cbn [set_plugin_state plugin_state is_capturing trans_captured] in *.
        exists w', f'. repeat split; try assumption; try congruence.
        -- rewrite Hd', Hd. unfold records. cbn [map concat].
           now rewrite <- app_assoc.
        -- rewrite Hn'. cbn [length]. apply wrap64_succ_add.
      * rewrite cb_vcpu_mem_access_skip by (now right). cbn [bind].
        pose proof (IH w f Hf Ho Hp Hn Hevs) as IHw. cbn zeta in IHw.
        rewrite Hc in IHw. exact IHw.
      * rewrite cb_vcpu_mem_access_skip by (now left). cbn [bind].
        pose proof (IH w f Hf Ho Hp Hn Hevs) as IHw. cbn zeta in IHw.
        rewrite Hc in IHw. exact IHw.
Qed.

(** The finalizer on a file that starts with an 8-byte header. *)
Lemma cb_plugin_exit_patch (id : Z) (w : world) (f : FILE)
    (header rest : list byte) :
  dump_file (plugin_state w) = Some f -> f_open f = true ->
  f_data f = header ++ rest -> length header = 8%nat ->
  cb_plugin_exit true true id w
  = Some (set_dump_file
            (Some (mkFILE (f_path f)
                     (bytes_of_uint64 (trans_captured (plugin_state w)) ++ rest)
                     8 (f_error f) false)) w).
Proof.
  intros Hf Ho Hd Hl. unfold cb_plugin_exit, fseek, fwrite, fclose.
  rewrite Hf. cbn [bind]. rewrite Ho.
  cbn [bind f_open f_path f_data f_pos f_error].
  rewrite Hd, put_bytes_at_start
    by (now rewrite length_bytes_of_uint64, Hl).
  now rewrite length_bytes_of_uint64.
Qed.

End Trace.

(** ** The plugin between startup and exit *)

Section Plugin.
Context {host : Host}.

(** In every state reached from a successful startup the sink is usable. *)
Lemma reached_live (header_ok : bool) (id : Z) (info : qemu_info_t)
    (argv : list string) (w w0 : world) (evs : list event) (w1 : world) :
  dump_file (plugin_state w) = None ->
  qemu_plugin_install header_ok id info argv w = Some (0, w0) ->
  run evs w0 = Some w1 ->
  plugin_live w1.
Proof.
  intros Hnull Hinst Hrun.
  destruct (qemu_plugin_install_success _ _ _ _ _ _ Hnull Hinst) as (p & ->).
  destruct (run_live evs _ (installed_live header_ok id p w))
    as (w' & Hrun' & Hr).
  congruence.
Qed.

(** When no write has failed since startup the sink is also at its end. *)
Lemma reached_ready (id : Z) (info : qemu_info_t)
    (argv : list string) (w w0 : world) (evs : list event) (w1 : world) :
  dump_file (plugin_state w) = None ->
  qemu_plugin_install true id info argv w = Some (0, w0) ->
  writes_succeed evs = true ->
  run evs w0 = Some w1 ->
  plugin_ready w1.
Proof.
  intros Hnull Hinst Hok Hrun.
  destruct (qemu_plugin_install_success _ _ _ _ _ _ Hnull Hinst) as (p & ->).
  destruct (installed_ready id p w) as ((f0 & Hf0 & Ho0 & Hp0) & Hn0).
  destruct (run_trace evs _ f0 Hf0 Ho0 Hp0 Hn0 Hok)
    as (w' & f' & Hrun' & Hf' & Ho' & Hp' & _ & _ & _ & Hn').
  rewrite Hrun in Hrun'. injection Hrun' as <-.
  split; [exists f'; now repeat split|].
  rewrite Hn'. apply wrap64_range.
Qed.

(** C1, as the code has it.  In every state reached from a successful
    startup in which [is_capturing] is true:
    - when the access resolves to a physical address that is not IO and the
      write succeeds, [cb_vcpu_mem_access] stores the 8 bytes of that
      physical address at the position of the dump file, moves the position
      past them, and increments [trans_captured] by one ([uint64_t]
      arithmetic: by exactly one unless the counter is at its maximum); when
      no write has failed since startup the position is the end of the file,
      so the record is appended after everything written before and records
      follow the order of the accesses;
    - whatever the outcome of the write, the callback returns and the
      counter is incremented;
    - when the address does not resolve, or resolves to an IO region, the
      callback leaves the world as it was: no record, same counter. *)
Theorem cb_vcpu_mem_access_capturing (header_ok : bool) (id : Z)
    (info : qemu_info_t) (argv : list string) (w w0 : world)
    (evs : list event) (w1 : world) (i : nat)
    (minfo : qemu_plugin_meminfo_t) (vaddr : Z) :
  dump_file (plugin_state w) = None ->
  qemu_plugin_install header_ok id info argv w = Some (0, w0) ->
  run evs w0 = Some w1 ->
  is_capturing (plugin_state w1) = true ->
  (forall hwaddr,
     qemu_plugin_get_hwaddr minfo vaddr = Some hwaddr ->
     qemu_plugin_hwaddr_is_io hwaddr = false ->
     let physical_addr := wrap64 (qemu_plugin_hwaddr_phys_addr hwaddr) in
     (exists f f' w2,
        dump_file (plugin_state w1) = Some f /\
        cb_vcpu_mem_access true i minfo vaddr w1 = Some w2 /\
        dump_file (plugin_state w2) = Some f' /\
        f_data f' = put_bytes (f_pos f) (bytes_of_uint64 physical_addr)
                              (f_data f) /\
        f_pos f' = (f_pos f + 8)%nat /\
        (header_ok = true -> writes_succeed evs = true ->
         f_data f' = f_data f ++ bytes_of_uint64 physical_addr) /\
        length (bytes_of_uint64 physical_addr) = 8%nat /\
        uint64_of_bytes (bytes_of_uint64 physical_addr) = physical_addr /\
        trans_captured (plugin_state w2)
          = wrap64 (trans_captured (plugin_state w1) + 1) /\
        (trans_captured (plugin_state w1) + 1 < 2 ^ 64 ->
         trans_captured (plugin_state w2)
         = trans_captured (plugin_state w1) + 1) /\
        is_capturing (plugin_state w2) = true) /\
     (forall ok, exists w2,
        cb_vcpu_mem_access ok i minfo vaddr w1 = Some w2 /\
        trans_captured (plugin_state w2)
          = wrap64 (trans_captured (plugin_state w1) + 1))) /\
  (qemu_plugin_get_hwaddr minfo vaddr = None \/
   (exists hwaddr, qemu_plugin_get_hwaddr minfo vaddr = Some hwaddr /\
                   qemu_plugin_hwaddr_is_io hwaddr = true) ->
   forall ok, cb_vcpu_mem_access ok i minfo vaddr w1 = Some w1).
Proof.
  intros Hnull Hinst Hrun Hc.
  destruct (reached_live _ _ _ _ _ _ _ _ Hnull Hinst Hrun)
    as ((f & Hf & Ho) & Hn).
  split.
  - intros hw Hhw Hio physical_addr.
    assert (Hm : memory_backed minfo vaddr = Some physical_addr)
      by (unfold memory_backed; now rewrite Hhw, Hio).
    split.
    + destruct (cb_vcpu_mem_access_attempt true i minfo vaddr physical_addr
                  w1 f Hc Hm Hf Ho) as (f' & Hw & _ & _ & Hok).
      destruct (Hok eq_refl) as (Hd & Hp & _).
      exists f, f'. eexists. split; [exact Hf|]. split; [exact Hw|].
      cbn [set_plugin_state plugin_state dump_file trans_captured
           is_capturing].
      split; [reflexivity|]. split; [exact Hd|]. split; [exact Hp|].
      split.
      { intros -> Hok'.
        destruct (reached_ready _ _ _ _ _ _ _ Hnull Hinst Hok' Hrun)
          as ((f1 & Hf1 & _ & Hp1) & _).
        rewrite Hf in Hf1. injection Hf1 as <-.
        rewrite Hd, Hp1. apply put_bytes_at_end. }
      split; [apply length_bytes_of_uint64|].
      split.
      { rewrite uint64_of_bytes_of_uint64. apply wrap64_small, wrap64_range. }
      split; [reflexivity|]. split; [|reflexivity].
      intros Hlt. apply wrap64_small. lia.
    + intros ok.
      destruct (cb_vcpu_mem_access_attempt ok i minfo vaddr physical_addr
                  w1 f Hc Hm Hf Ho) as (f' & Hw & _).
      eexists. split; [exact Hw|]. reflexivity.
  - intros Hskip ok. apply cb_vcpu_mem_access_skip. right.
    unfold memory_backed. destruct Hskip as [-> | (hw & -> & ->)]; reflexivity.
Qed.

(** C2, as the code has it.  After a successful startup whose placeholder
    write succeeded, a run of callbacks in which every write succeeds, and
    the finalizer (its seek, its write and its close succeeding too): the
    dump file is closed; its first 8 bytes hold the number of records, the
    bytes after them are exactly the records of the run's trace, in order,
    and the file is [8 + 8 * header] bytes long.  This holds whether or not
    capture is on when the run ends, and for a run that records nothing.
    (The number of records is taken below [2 ^ 64], the range of the
    header.) *)
Theorem cb_plugin_exit_header (id id' : Z) (info : qemu_info_t)
    (argv : list string) (w w0 : world) (evs : list event) :
  dump_file (plugin_state w) = None ->
  qemu_plugin_install true id info argv w = Some (0, w0) ->
  writes_succeed evs = true ->
  Z.of_nat (length (expected_trace evs false)) < 2 ^ 64 ->
  exists w1 w2 f,
    run evs w0 = Some w1 /\
    cb_plugin_exit true true id' w1 = Some w2 /\
    dump_file (plugin_state w2) = Some f /\
    f_open f = false /\
    let header := uint64_of_bytes (firstn 8 (f_data f)) in
    skipn 8 (f_data f) = records (expected_trace evs false) /\
    header = Z.of_nat (length (expected_trace evs false)) /\
    Z.of_nat (length (f_data f)) = 8 + 8 * header.
Proof.
  intros Hnull Hinst Hok Hlen.
  destruct (qemu_plugin_install_success _ _ _ _ _ _ Hnull Hinst) as (p & ->).
  set (f0 := mkFILE p (bytes_of_uint64 0) 8 false true).
  destruct (run_trace evs (installed true id p w) f0 eq_refl eq_refl eq_refl)
    as (w1 & f1 & Hrun & Hf1 & Ho1 & _ & _ & _ & Hd1 & Hn1);
    [cbn; lia | exact Hok |].
  cbn [installed plugin_state is_capturing trans_captured f_data f0] in Hd1, Hn1.
  rewrite Z.add_0_l, wrap64_small in Hn1 by lia.
  exists w1. eexists. eexists. split; [exact Hrun|].
  split.
  { apply (cb_plugin_exit_patch id' w1 f1 (bytes_of_uint64 0)
             (records (expected_trace evs false)) Hf1 Ho1 Hd1).
    apply length_bytes_of_uint64. }
  cbn [set_dump_file set_plugin_state plugin_state dump_file].
  split; [reflexivity|]. split; [reflexivity|].
  cbn [f_data]. rewrite Hn1.
  set (n := length (expected_trace evs false)) in *.
  assert (Hhdr : length (bytes_of_uint64 (Z.of_nat n)) = 8%nat)
    by apply length_bytes_of_uint64.
  split; [|split].
  - rewrite skipn_app, Hhdr, Nat.sub_diag, skipn_all2 by lia. reflexivity.
  - rewrite firstn_app, Hhdr, Nat.sub_diag, firstn_all2 by lia.
    cbn [firstn]. rewrite app_nil_r, uint64_of_bytes_of_uint64.
    apply wrap64_small. lia.
  - rewrite firstn_app, Hhdr, Nat.sub_diag, firstn_all2 by lia.
    cbn [firstn]. rewrite app_nil_r, uint64_of_bytes_of_uint64.
    rewrite wrap64_small by lia.
    rewrite length_app, Hhdr, length_records. fold n. lia.
Qed.

(** C3.  A successful startup leaves the plugin idle: [is_capturing] is
    false and [trans_captured] is 0.  Each call of
    [cb_vcpu_magic_insn_exec] negates [is_capturing].  Hence after any run
    of callbacks from startup, which always goes through, the plugin is idle
    when the magic instruction has executed an even number of times and
    capturing when it has executed an odd number of times. *)
Theorem magic_insn_parity (header_ok : bool) (id : Z) (info : qemu_info_t)
    (argv : list string) (w w0 : world) :
  dump_file (plugin_state w) = None ->
  qemu_plugin_install header_ok id info argv w = Some (0, w0) ->
  is_capturing (plugin_state w0) = false /\
  trans_captured (plugin_state w0) = 0 /\
  (forall cpu_index w1, exists w2,
     cb_vcpu_magic_insn_exec cpu_index w1 = Some w2 /\
     is_capturing (plugin_state w2) = negb (is_capturing (plugin_state w1))) /\
  forall evs, exists w1,
    run evs w0 = Some w1 /\
    (Nat.Even (toggles evs) -> is_capturing (plugin_state w1) = false) /\
    (Nat.Odd (toggles evs) -> is_capturing (plugin_state w1) = true).
Proof.
  intros Hnull Hinst.
  destruct (qemu_plugin_install_success _ _ _ _ _ _ Hnull Hinst) as (p & ->).
  split; [reflexivity|]. split; [reflexivity|]. split.
  - intros cpu_index w1. eexists.
    split; [apply cb_vcpu_magic_insn_exec_eq | reflexivity].
  - intros evs.
    destruct (run_live evs _ (installed_live header_ok id p w))
      as (w1 & Hrun & _).
    exists w1. split; [exact Hrun|].
    apply run_flags in Hrun. destruct Hrun as (_ & Hc).
    cbn [installed plugin_state is_capturing xorb] in Hc. rewrite Hc. split.
    + intros He. apply Nat.even_spec in He.
      now rewrite <- Nat.negb_even, He.
    + intros Hodd. now apply Nat.odd_spec.
Qed.

End Plugin.

(** ** What the code does where the specification differs *)

Section Deviations.
Context {host : Host}.

(** C10.  After every successful startup, whatever the options were,
    [plugin_state.rw] is [QEMU_PLUGIN_MEM_RW]; no callback changes it; and so
    in every block translated at any later point, each instruction that is
    not the magic instruction gets its memory callback registered for both
    reads and writes. *)
Theorem access_filter_read_write (header_ok : bool) (id : Z)
    (info : qemu_info_t) (argv : list string) (w w0 : world) :
  dump_file (plugin_state w) = None ->
  qemu_plugin_install header_ok id info argv w = Some (0, w0) ->
  rw (plugin_state w0) = QEMU_PLUGIN_MEM_RW /\
  forall evs, exists w1,
    run evs w0 = Some w1 /\
    rw (plugin_state w1) = QEMU_PLUGIN_MEM_RW /\
    forall id' tb, exists added,
      cb_vcpu_tb_trans id' tb w1
      = Some (mkWorld (plugin_state w1) (plugin_outs w1) (stderr_outs w1)
                (registered w1 ++ added)) /\
      forall i d,
        nth_error tb i = Some d ->
        is_magic_inst d (length d) = Some false ->
        nth_error added i
        = Some (Reg_vcpu_mem_cb (mkInsn i d) Cb_vcpu_mem_access
                                QEMU_PLUGIN_CB_NO_REGS QEMU_PLUGIN_MEM_RW).
Proof.
  intros Hnull Hinst.
  destruct (qemu_plugin_install_success _ _ _ _ _ _ Hnull Hinst) as (p & ->).
  split; [reflexivity|]. intros evs.
  destruct (run_live evs _ (installed_live header_ok id p w))
    as (w1 & Hrun & _).
  exists w1. split; [exact Hrun|].
  apply run_flags in Hrun. destruct Hrun as (Hrw & _).
  cbn [installed plugin_state rw] in Hrw. split; [exact Hrw|].
  intros id' tb. eexists. split; [apply cb_vcpu_tb_trans_hooks|].
  intros i d Hnth Hnot. rewrite (nth_error_hooks_from _ tb 0 i d Hnth), Hrw.
  cbn [Nat.add].
  destruct (hook_cases QEMU_PLUGIN_MEM_RW i d) as [(Hb & _) | (_ & ->)];
    [congruence | reflexivity].
Qed.

(** C7, as the code has it.  In every state reached from a successful
    startup in which [is_capturing] is true, when the access resolves to a
    physical address that is not IO and the write fails: the callback
    returns as usual and reports nothing (nothing is given to
    [qemu_plugin_outs] or printed on [stderr]); [trans_captured] is
    incremented all the same; capture stays on, the dump file stays open on
    the same path; and every later run of callbacks goes through. *)
Theorem failed_write_is_ignored (header_ok : bool) (id : Z)
    (info : qemu_info_t) (argv : list string) (w w0 : world)
    (evs : list event) (w1 : world) (i : nat)
    (minfo : qemu_plugin_meminfo_t) (vaddr : Z)
    (hwaddr : qemu_plugin_hwaddr) :
  dump_file (plugin_state w) = None ->
  qemu_plugin_install header_ok id info argv w = Some (0, w0) ->
  run evs w0 = Some w1 ->
  is_capturing (plugin_state w1) = true ->
  qemu_plugin_get_hwaddr minfo vaddr = Some hwaddr ->
  qemu_plugin_hwaddr_is_io hwaddr = false ->
  exists f f' w2,
    dump_file (plugin_state w1) = Some f /\
    cb_vcpu_mem_access false i minfo vaddr w1 = Some w2 /\
    dump_file (plugin_state w2) = Some f' /\
    f_open f' = true /\ f_path f' = f_path f /\
    trans_captured (plugin_state w2)
      = wrap64 (trans_captured (plugin_state w1) + 1) /\
    is_capturing (plugin_state w2) = true /\
    plugin_outs w2 = plugin_outs w1 /\
    stderr_outs w2 = stderr_outs w1 /\
    forall evs', exists w3, run evs' w2 = Some w3.
Proof.
  intros Hnull Hinst Hrun Hc Hhw Hio.
  destruct (reached_live _ _ _ _ _ _ _ _ Hnull Hinst Hrun)
    as ((f & Hf & Ho) & Hn).
  assert (Hm : memory_backed minfo vaddr
               = Some (wrap64 (qemu_plugin_hwaddr_phys_addr hwaddr)))
    by (unfold memory_backed; now rewrite Hhw, Hio).
  destruct (cb_vcpu_mem_access_attempt false i minfo vaddr _ w1 f
              Hc Hm Hf Ho) as (f' & Hw & Ho' & Hpath & _).
  exists f, f'. eexists. split; [exact Hf|]. split; [exact Hw|].
  cbn [set_plugin_state plugin_state dump_file trans_captured is_capturing
       plugin_outs stderr_outs].
  repeat (split; [reflexivity || assumption|]).
  intros evs'.
  match type of Hw with
  | _ = Some ?w2 => destruct (run_live evs' w2) as (w3 & Hrun3 & _)
  end.
  - split; [|apply wrap64_range]. exists f'. now split.
  - now exists w3.
Qed.

(** The option loop on dump options whose paths all open. *)
Lemma install_options_dumps (paths : list string) : forall w,
  paths <> [] ->
  (forall q, In q paths -> can_open q = true) ->
  install_options (map dump_option paths) w
  = Some (None,
          set_dump_file
            (Some (mkFILE (last paths EmptyString) [] 0 false true)) w).
Proof.
  induction paths as [|q rest IH]; intros w Hne Hopen; [contradiction|].
  cbn [map install_options]. unfold dump_option at 1 2.
  cbn [append g_strsplit split_first Ascii.eqb Bool.eqb nth_error].
  change (g_strcmp0 (Some "dump"%string) (Some "dump"%string) =? 0) with true.
  cbv iota. unfold fopen. cbn [bind].
  rewrite (Hopen q) by now left.
  destruct rest as [|q' rest'].
  - reflexivity.
  - rewrite IH; [| discriminate | intros x Hx; apply Hopen; now right].
    reflexivity.
Qed.

(** C8, as the code has it.  For every argument list made of dump options
    only, however many of them, whose paths all open, on a single-processor
    x86_64 system emulation: startup does not treat a repeated dump option
    as an error.  The sink is the stream opened on the path of the last
    occurrence, nothing is printed on [stderr] and the status is 0. *)
Theorem repeated_dump_last_wins (header_ok : bool) (id : Z)
    (info : qemu_info_t) (paths : list string) (p : string) (w : world) :
  (forall q, In q (paths ++ [p]) -> can_open q = true) ->
  system_emulation info = true ->
  max_vcpus info <= 1 ->
  target_name info = "x86_64"%string ->
  exists w0 f,
    qemu_plugin_install header_ok id info (map dump_option (paths ++ [p])) w
    = Some (0, w0) /\
    w0 = installed header_ok id p w /\
    dump_file (plugin_state w0) = Some f /\ f_path f = p /\
    stderr_outs w0 = stderr_outs w.
Proof.
  intros Hopen Hsys Hcpu Htarget.
  exists (installed header_ok id p w). eexists.
  split; [|split; [reflexivity|]].
  - unfold qemu_plugin_install.
    rewrite install_options_dumps;
      [| now destruct paths | exact Hopen].
    rewrite last_last. cbn [bind set_dump_file set_plugin_state plugin_state
                            dump_file].
    rewrite Hsys, Htarget. cbn [negb].
    replace (max_vcpus info >? 1) with false
      by (symmetry; rewrite Z.gtb_ltb; now apply Z.ltb_ge).
    change (g_strcmp0 (Some "x86_64"%string) (Some "x86_64"%string) =? 0)
      with true.
    cbn [negb]. destruct w as [[f c r n] outs errs regs].
    unfold register, set_dump_file, set_plugin_state, qemu_plugin_outs,
      fwrite, installed.
    destruct header_ok; cbn; now rewrite <- !app_assoc.
  - cbn [installed plugin_state dump_file stderr_outs].
    split; [reflexivity|]. split; [|reflexivity]. now destruct header_ok.
Qed.

End Deviations.

(** ** The statements on a concrete run *)

Lemma cb_vcpu_mem_access_capturing_witness :
  dump_file (plugin_state world_at_load) = None /\
  qemu_plugin_install (host := flat_host) true 0 x86_64_system demo_argv
    world_at_load = Some (0, demo_installed) /\
  run demo_toggle demo_installed = Some demo_capturing /\
  is_capturing (plugin_state demo_capturing) = true /\
  exists w2 f',
    cb_vcpu_mem_access (host := flat_host) true 0 tt 4096 demo_capturing
      = Some w2 /\
    dump_file (plugin_state w2) = Some f' /\
    f_data f' = bytes_of_uint64 0 ++ bytes_of_uint64 4096 /\
    trans_captured (plugin_state w2) = 1.
Proof.
  repeat (split; [reflexivity|]).
  destruct (cb_vcpu_mem_access_capturing (host := flat_host)
              true 0 x86_64_system demo_argv world_at_load demo_installed
              demo_toggle demo_capturing 0 tt 4096
              eq_refl eq_refl eq_refl eq_refl) as (Hrec & _).
  destruct (Hrec 4096 eq_refl eq_refl) as (Hok & _).
  destruct Hok as (f & f' & w2 & Hf & Hw & Hf' & _ & _ & Hd & _ & _ & Hn & _).
  exists w2, f'. split; [exact Hw|]. split; [exact Hf'|].
  vm_compute in Hf. injection Hf as <-.
  split; [exact (Hd eq_refl eq_refl) | exact Hn].
Defined.

Lemma cb_plugin_exit_header_witness :
  dump_file (plugin_state world_at_load) = None /\
  qemu_plugin_install (host := flat_host) true 0 x86_64_system demo_argv
    world_at_load = Some (0, demo_installed) /\
  writes_succeed demo_run = true /\
  Z.of_nat (length (expected_trace demo_run false)) < 2 ^ 64 /\
  exists w1 w2 f,
    run demo_run demo_installed = Some w1 /\
    cb_plugin_exit (host := flat_host) true true 0 w1 = Some w2 /\
    dump_file (plugin_state w2) = Some f /\
    f_open f = false /\
    skipn 8 (f_data f) = records [4096; 8192] /\
    uint64_of_bytes (firstn 8 (f_data f)) = 2 /\
    Z.of_nat (length (f_data f)) = 24.
Proof.
  repeat (split; [reflexivity|]).
  destruct (cb_plugin_exit_header (host := flat_host)
              0 0 x86_64_system demo_argv world_at_load demo_installed
              demo_run eq_refl eq_refl eq_refl eq_refl)
    as (w1 & w2 & f & Hrun & Hexit & Hf & Ho & Hs & Hh & Hl).
  exists w1, w2, f.
  split; [exact Hrun|]. split; [exact Hexit|]. split; [exact Hf|].
  split; [exact Ho|]. split; [exact Hs|]. split; [exact Hh|].
  rewrite Hl, Hh. reflexivity.
Defined.

Lemma magic_insn_parity_witness :
  dump_file (plugin_state world_at_load) = None /\
  qemu_plugin_install (host := flat_host) true 0 x86_64_system demo_argv
    world_at_load = Some (0, demo_installed) /\
  exists w1,
    run demo_run demo_installed = Some w1 /\
    is_capturing (plugin_state w1) = false.
Proof.
  repeat (split; [reflexivity|]).
  destruct (magic_insn_parity (host := flat_host)
              true 0 x86_64_system demo_argv world_at_load demo_installed
              eq_refl eq_refl) as (_ & _ & _ & Hruns).
  destruct (Hruns demo_run) as (w1 & Hrun & Heven & _).
  exists w1. split; [exact Hrun|]. apply Heven. exists 1%nat. reflexivity.
Defined.

Lemma cb_vcpu_mem_access_idle_witness :
  is_capturing (plugin_state demo_installed) = false /\
  cb_vcpu_mem_access (host := flat_host) true 0 tt 4096 demo_installed
    = Some demo_installed.
Proof.
  split; [reflexivity|].
  exact (proj1 (cb_vcpu_mem_access_idle (host := flat_host)
                  true 0 tt 4096 demo_installed eq_refl)).
Defined.

Lemma access_filter_read_write_witness :
  dump_file (plugin_state world_at_load) = None /\
  qemu_plugin_install (host := flat_host) true 0 x86_64_system demo_argv
    world_at_load = Some (0, demo_installed) /\
  rw (plugin_state demo_installed) = QEMU_PLUGIN_MEM_RW.
Proof.
  repeat (split; [reflexivity|]).
  exact (proj1 (access_filter_read_write (host := flat_host)
                  true 0 x86_64_system demo_argv world_at_load demo_installed
                  eq_refl eq_refl)).
Defined.

Lemma failed_write_is_ignored_witness :
  dump_file (plugin_state world_at_load) = None /\
  qemu_plugin_install (host := flat_host) true 0 x86_64_system demo_argv
    world_at_load = Some (0, demo_installed) /\
  run demo_toggle demo_installed = Some demo_capturing /\
  is_capturing (plugin_state demo_capturing) = true /\
  qemu_plugin_get_hwaddr (Host := flat_host) tt 4096 = Some 4096 /\
  qemu_plugin_hwaddr_is_io (Host := flat_host) 4096 = false /\
  exists w2,
    cb_vcpu_mem_access (host := flat_host) false 0 tt 4096 demo_capturing
      = Some w2 /\
    trans_captured (plugin_state w2) = 1.
Proof.
  repeat (split; [reflexivity|]).
  destruct (failed_write_is_ignored (host := flat_host)
              true 0 x86_64_system demo_argv world_at_load demo_installed
              demo_toggle demo_capturing 0 tt 4096 4096
              eq_refl eq_refl eq_refl eq_refl eq_refl eq_refl)
    as (f & f' & w2 & _ & Hw & _ & _ & _ & Hn & _).
  exists w2. split; [exact Hw | exact Hn].
Defined.

Lemma flat_host_opens_a_b :
  forall q, In q (["a"%string] ++ ["b"%string]) ->
            can_open (Host := flat_host) q = true.
Proof. intros q [<- | [<- | []]]; reflexivity. Qed.

Lemma repeated_dump_last_wins_witness :
  (forall q, In q (["a"%string] ++ ["b"%string]) ->
             can_open (Host := flat_host) q = true) /\
  system_emulation x86_64_system = true /\
  max_vcpus x86_64_system <= 1 /\
  target_name x86_64_system = "x86_64"%string /\
  qemu_plugin_install (host := flat_host) true 0 x86_64_system
    (map dump_option (["a"%string] ++ ["b"%string])) world_at_load
  = Some (0, installed (H := flat_host) true 0 "b" world_at_load).
Proof.
  split; [exact flat_host_opens_a_b|].
  split; [reflexivity|]. split; [vm_compute; discriminate|].
  split; [reflexivity|].
  destruct (repeated_dump_last_wins (host := flat_host)
              true 0 x86_64_system ["a"%string] "b" world_at_load
              flat_host_opens_a_b eq_refl
              (Z.le_refl 1) eq_refl)
    as (w0 & f & Hinst & -> & _).
  exact Hinst.
Defined.

(** C1, a case where the claim fails.  On [flat_host], after startup and one
    execution of the magic instruction, capture is on; an access to guest
    address 4096 resolves to physical address 4096, which is not IO; its
    write fails.  The callback returns with no record appended (the dump
    file still holds the 8 header bytes and nothing else) and with
    [trans_captured] gone from 0 to 1. *)
Lemma unwritten_record_counterexample :
  exists w2 f2,
    qemu_plugin_install (host := flat_host) true 0 x86_64_system demo_argv
      world_at_load = Some (0, demo_installed) /\
    run demo_toggle demo_installed = Some demo_capturing /\
    is_capturing (plugin_state demo_capturing) = true /\
    qemu_plugin_get_hwaddr (Host := flat_host) tt 4096 = Some 4096 /\
    qemu_plugin_hwaddr_is_io (Host := flat_host) 4096 = false /\
    trans_captured (plugin_state demo_capturing) = 0 /\
    cb_vcpu_mem_access (host := flat_host) false 0 tt 4096 demo_capturing
      = Some w2 /\
    trans_captured (plugin_state w2) = 1 /\
    dump_file (plugin_state w2) = Some f2 /\
    f_data f2 = bytes_of_uint64 0.
Proof.
  do 2 eexists. repeat (split; [reflexivity|]). reflexivity.
Qed.

(** C2, a case where the claim fails.  On [flat_host], startup, then a
    capture window with three memory-backed accesses of which the second
    fails to be written, then the finalizer (its seek, write and close
    succeeding): the header reads 3, two records follow it, and the file is
    24 bytes long, not [8 + 8 * 3]. *)
Lemma header_overcounts_counterexample :
  exists w1 w2 f,
    qemu_plugin_install (host := flat_host) true 0 x86_64_system demo_argv
      world_at_load = Some (0, demo_installed) /\
    run demo_lossy_run demo_installed = Some w1 /\
    cb_plugin_exit (host := flat_host) true true 0 w1 = Some w2 /\
    dump_file (plugin_state w2) = Some f /\
    uint64_of_bytes (firstn 8 (f_data f)) = 3 /\
    skipn 8 (f_data f) = records [4096; 12288] /\
    Z.of_nat (length (f_data f)) = 24 /\
    Z.of_nat (length (f_data f))
    <> 8 + 8 * uint64_of_bytes (firstn 8 (f_data f)).
Proof.
  do 3 eexists. repeat (split; [reflexivity|]). discriminate.
Qed.

(** C7, a case where the claim fails.  On [flat_host], after startup and one
    execution of the magic instruction, an access to guest address 4096
    whose write fails: the callback returns and [trans_captured] goes from
    0 to 1; the next access is handled as usual and the counter reaches
    2. *)
Lemma failed_write_counterexample :
  exists w2 w3,
    qemu_plugin_install (host := flat_host) true 0 x86_64_system demo_argv
      world_at_load = Some (0, demo_installed) /\
    run demo_toggle demo_installed = Some demo_capturing /\
    trans_captured (plugin_state demo_capturing) = 0 /\
    cb_vcpu_mem_access (host := flat_host) false 0 tt 4096 demo_capturing
      = Some w2 /\
    trans_captured (plugin_state w2) = 1 /\
    cb_vcpu_mem_access (host := flat_host) true 0 tt 8192 w2 = Some w3 /\
    trans_captured (plugin_state w3) = 2.
Proof.
  do 2 eexists. repeat (split; [reflexivity|]). reflexivity.
Qed.

(** C8, a case where the claim fails.  On [flat_host], startup with the
    dump option given twice returns status 0, prints nothing on [stderr],
    registers its callbacks, and uses the second file as the sink. *)
Lemma repeated_dump_counterexample :
  exists w0 f,
    qemu_plugin_install (host := flat_host) true 0 x86_64_system
      ["dump=a"%string; "dump=b"%string] world_at_load = Some (0, w0) /\
    stderr_outs w0 = [] /\
    dump_file (plugin_state w0) = Some f /\
    f_path f = "b"%string /\
    registered w0 = [Reg_vcpu_init_cb 0 Cb_vcpu_init;
                     Reg_vcpu_tb_trans_cb 0 Cb_vcpu_tb_trans;
                     Reg_atexit_cb 0 Cb_plugin_exit].
Proof.
  do 2 eexists. repeat (split; [reflexivity|]). reflexivity.
Qed.

(** * Further properties *)

(** ** Which instructions toggle, and when hooks change *)

Lemma is_magic_inst_whole (d : list byte) :
  (is_magic_inst d (length d) = Some true <-> d = MAGIC_INST) /\
  (is_magic_inst d (length d) = Some false <-> d <> MAGIC_INST).
Proof.
  rewrite is_magic_inst_true_iff,
    (is_magic_inst_false_iff d (length d) (Nat.le_refl _)), firstn_all.
  split; split.
  - now intros (_ & H).
  - intros ->. now split.
  - intros H Hd. apply H. subst d. now split.
  - intros H (_ & Hd). now apply H.
Qed.

Section InstrumenterMore.
Context {host : Host}.

(** X1.  In a translated block an instruction is wired to the toggle
    callback exactly when its bytes are the 10 bytes of [MAGIC_INST], no
    fewer and no more; every other instruction, also one that starts with
    the pattern and goes on, or the empty one, is wired to the memory
    callback. *)
Theorem cb_vcpu_tb_trans_toggle_iff_pattern (id : Z) (tb : qemu_plugin_tb)
    (w : world) :
  exists added,
    cb_vcpu_tb_trans id tb w
    = Some (mkWorld (plugin_state w) (plugin_outs w) (stderr_outs w)
              (registered w ++ added)) /\
    forall i d, nth_error tb i = Some d ->
      (d = MAGIC_INST ->
       nth_error added i
       = Some (Reg_vcpu_insn_exec_cb (mkInsn i d) Cb_vcpu_magic_insn_exec
                                     QEMU_PLUGIN_CB_NO_REGS)) /\
      (d <> MAGIC_INST ->
       nth_error added i
       = Some (Reg_vcpu_mem_cb (mkInsn i d) Cb_vcpu_mem_access
                               QEMU_PLUGIN_CB_NO_REGS (rw (plugin_state w)))).
Proof.
  eexists. split; [apply cb_vcpu_tb_trans_hooks|].
  intros i d Hnth. rewrite (nth_error_hooks_from _ tb 0 i d Hnth).
  cbn [Nat.add]. destruct (is_magic_inst_whole d) as (Ht & Hf).
  destruct (hook_cases (rw (plugin_state w)) i d) as [(Hb & ->) | (Hb & ->)].
  - split; [reflexivity|]. intros Hne. apply Hf in Hne. congruence.
  - split; [|reflexivity]. intros He. apply Ht in He. congruence.
Qed.

(** X2.  The hooks of a block do not depend on when it is translated:
    after any run of callbacks (toggles, recorded accesses, other
    translations) a block is instrumented with the same registrations, in
    the same order, as before the run. *)
Theorem cb_vcpu_tb_trans_again (id id' : Z) (tb : qemu_plugin_tb)
    (evs : list event) (w w' : world) :
  run evs w = Some w' ->
  exists added,
    cb_vcpu_tb_trans id tb w
    = Some (mkWorld (plugin_state w) (plugin_outs w) (stderr_outs w)
              (registered w ++ added)) /\
    cb_vcpu_tb_trans id' tb w'
    = Some (mkWorld (plugin_state w') (plugin_outs w') (stderr_outs w')
              (registered w' ++ added)).
Proof.
  intros Hrun. apply run_flags in Hrun. destruct Hrun as (Hrw & _).
  exists (hooks_from (rw (plugin_state w)) 0 tb).
  split; [apply cb_vcpu_tb_trans_hooks|].
  rewrite cb_vcpu_tb_trans_hooks, Hrw. reflexivity.
Qed.

(** X3.  [cb_vcpu_mem_access] touches nothing but the dump file and the
    counter: whenever it returns, [is_capturing] and [rw] are as before,
    nothing was given to [qemu_plugin_outs] or printed on [stderr], no
    callback was registered, and the dump file still goes to the same
    path. *)
Theorem cb_vcpu_mem_access_frame (ok : bool) (i : nat)
    (info : qemu_plugin_meminfo_t) (vaddr : Z) (w w' : world) :
  cb_vcpu_mem_access ok i info vaddr w = Some w' ->
  is_capturing (plugin_state w') = is_capturing (plugin_state w) /\
  rw (plugin_state w') = rw (plugin_state w) /\
  plugin_outs w' = plugin_outs w /\
  stderr_outs w' = stderr_outs w /\
  registered w' = registered w /\
  option_map f_path (dump_file (plugin_state w'))
  = option_map f_path (dump_file (plugin_state w)).
Proof.
  unfold cb_vcpu_mem_access. intros H.
  destruct (is_capturing (plugin_state w)) eqn:Hc; cbn [negb] in H;
    [|injection H as <-; now rewrite Hc].
  destruct (qemu_plugin_get_hwaddr info vaddr) as [hw|];
    [|injection H as <-; now rewrite Hc].
  destruct (qemu_plugin_hwaddr_is_io hw); [injection H as <-; now rewrite Hc|].
  unfold fwrite in H.
  destruct (dump_file (plugin_state w)) as [f|]; cbn [bind] in H;
    [|discriminate].
  destruct (f_open f); [|discriminate].
  destruct ok; cbn [bind] in H; injection H as <-; now repeat split.
Qed.

End InstrumenterMore.

Lemma cb_vcpu_tb_trans_again_witness :
  run demo_run demo_installed = Some (after demo_run demo_installed) /\
  exists added,
    cb_vcpu_tb_trans 0 demo_block demo_installed
    = Some (mkWorld (plugin_state demo_installed) (plugin_outs demo_installed)
              (stderr_outs demo_installed)
              (registered demo_installed ++ added)) /\
    cb_vcpu_tb_trans 0 demo_block (after demo_run demo_installed)
    = Some (mkWorld (plugin_state (after demo_run demo_installed))
              (plugin_outs (after demo_run demo_installed))
              (stderr_outs (after demo_run demo_installed))
              (registered (after demo_run demo_installed) ++ added)).
Proof.
  split; [reflexivity|].
  exact (cb_vcpu_tb_trans_again (host := flat_host) 0 0 demo_block demo_run
           demo_installed (after demo_run demo_installed) eq_refl).
Defined.

Lemma cb_vcpu_mem_access_frame_witness :
  cb_vcpu_mem_access (host := flat_host) true 0 tt 4096 demo_capturing
  = Some (after [demo_access true 4096] demo_capturing) /\
  plugin_outs (after [demo_access true 4096] demo_capturing)
  = plugin_outs demo_capturing.
Proof.
  split; [reflexivity|].
  exact (proj1 (proj2 (proj2
    (cb_vcpu_mem_access_frame (host := flat_host) true 0 tt 4096 demo_capturing
       (after [demo_access true 4096] demo_capturing) eq_refl)))).
Defined.

(** ** The dump file under any write outcomes *)

Section TraceMore.
Context {host : Host}.


(** A run from a state with a usable sink goes through whatever the write
    outcomes; the stream stays usable on the same path, the counter grows by
    the number of records attempted, and nothing is printed on [stderr]. *)
Lemma run_counts_any (evs : list event) : forall (w : world) (f : FILE),
  dump_file (plugin_state w) = Some f ->
  f_open f = true ->
  0 <= trans_captured (plugin_state w) < 2 ^ 64 ->
  exists w' f',
    run evs w = Some w' /\
    dump_file (plugin_state w') = Some f' /\
    f_open f' = true /\
    f_path f' = f_path f /\
    trans_captured (plugin_state w') =
      wrap64 (trans_captured (plugin_state w)
              + Z.of_nat (length (expected_trace evs
                                    (is_capturing (plugin_state w))))) /\
    stderr_outs w' = stderr_outs w.
Proof.
  induction evs as [|e evs IH]; intros w f Hf Ho Hn.
  - exists w, f. cbn [run expected_trace length].
    rewrite Z.add_0_r, wrap64_small by assumption.
    now repeat split.
  - cbn [run].
    destruct e as [id i | id tb | i | ok i info vaddr];
      cbn [dispatch expected_trace].
    + cbn [cb_vcpu_init bind]. now apply IH.
    + rewrite cb_vcpu_tb_trans_hooks. cbn [bind].
      match goal with
      | |- exists _ _, run _ ?w1 = _ /\ _ => apply (IH w1 f)
      end; assumption.
    + rewrite cb_vcpu_magic_insn_exec_eq. cbn [bind].
      match goal with
      | |- exists _ _, run _ ?w1 = _ /\ _ => apply (IH w1 f)
      end; cbn [plugin_state dump_file trans_captured]; assumption.
    + destruct (is_capturing (plugin_state w)) eqn:Hc;
        [destruct (memory_backed info vaddr) as [a|] eqn:Hm|].
      * destruct (cb_vcpu_mem_access_attempt ok i info vaddr a w f
                    Hc Hm Hf Ho) as (f1 & Hw & Ho1 & Hpath & _).
        rewrite Hw. cbn [bind].
        match type of Hw with
        | _ = Some ?w1 =>
            destruct (IH w1 f1 eq_refl Ho1 (wrap64_range _))
              as (w' & f' & Hrun & Hf' & Ho' & Hpath' & Hn' & He')
        end.
        cbn [set_plugin_state plugin_state is_capturing trans_captured
             stderr_outs] in *.
        exists w', f'. repeat split; try assumption; try congruence.
        rewrite Hn'. cbn [length]. apply wrap64_succ_add.
      * rewrite cb_vcpu_mem_access_skip by (now right). cbn [bind].
        pose proof (IH w f Hf Ho Hn) as IHw. rewrite Hc in IHw. exact IHw.
      * rewrite cb_vcpu_mem_access_skip by (now left). cbn [bind].
        pose proof (IH w f Hf Ho Hn) as IHw. rewrite Hc in IHw. exact IHw.
Qed.



End TraceMore.



(** ** Reading the trace back, and the finalizer under failures *)


Section FinalizerMore.
Context {host : Host}.




(** X8.  The finalizer may run once.  After it has run, the stream is
    closed: running it again is undefined, and so is any access that would
    be recorded (capture on, memory-backed); an access made while idle still
    returns. *)
Theorem cb_plugin_exit_once (seek_ok write_ok seek_ok' write_ok' : bool)
    (id id' : Z) (w1 w2 : world) :
  cb_plugin_exit seek_ok write_ok id w1 = Some w2 ->
  cb_plugin_exit seek_ok' write_ok' id' w2 = None /\
  (forall ok i info vaddr a,
     is_capturing (plugin_state w2) = true ->
     memory_backed info vaddr = Some a ->
     cb_vcpu_mem_access ok i info vaddr w2 = None) /\
  (forall ok i info vaddr,
     is_capturing (plugin_state w2) = false ->
     cb_vcpu_mem_access ok i info vaddr w2 = Some w2).
Proof.
  intros H. unfold cb_plugin_exit in H.
  destruct (fseek seek_ok (dump_file (plugin_state w1)) 0) as [[r1 f1]|];
    cbn [bind] in H; [|discriminate].
  destruct (fwrite write_ok _ (Some f1)) as [[r2 f2]|]; cbn [bind] in H;
    [|discriminate].
  unfold fclose in H. cbn [bind] in H.
  destruct (f_open f2); [|discriminate]. injection H as <-.
  split; [reflexivity|]. split.
  - intros ok i info vaddr a Hc Hm.
    unfold cb_vcpu_mem_access, memory_backed in *. rewrite Hc. cbn [negb].
    destruct (qemu_plugin_get_hwaddr info vaddr) as [hw|]; [|discriminate].
    destruct (qemu_plugin_hwaddr_is_io hw); [discriminate | reflexivity].
  - intros ok i info vaddr Hc. apply cb_vcpu_mem_access_skip. now left.
Qed.

End FinalizerMore.



Lemma cb_plugin_exit_once_witness :
  exists w2,
    cb_plugin_exit (host := flat_host) true true 0
      (after demo_run demo_installed) = Some w2 /\
    cb_plugin_exit (host := flat_host) true true 0 w2 = None.
Proof.
  eexists. split; [reflexivity|].
  exact (proj1 (cb_plugin_exit_once (host := flat_host) true true true true
                  0 0 (after demo_run demo_installed) _ eq_refl)).
Defined.

(** ** The toggle callback over a run *)

Section ToggleMore.
Context {host : Host}.

(** X9.  Two executions of the magic instruction in a row leave
    [plugin_state] exactly as it was (flag, counter, filter and dump file):
    a capture window that is opened and closed at once records nothing and
    costs nothing but the lines it prints. *)
Theorem cb_vcpu_magic_insn_exec_twice (i j : nat) (w : world) :
  exists w1 w2,
    cb_vcpu_magic_insn_exec i w = Some w1 /\
    cb_vcpu_magic_insn_exec j w1 = Some w2 /\
    plugin_state w2 = plugin_state w /\
    stderr_outs w2 = stderr_outs w /\
    registered w2 = registered w /\
    length (plugin_outs w2) = (length (plugin_outs w) + 5)%nat.
Proof.
  do 2 eexists. split; [apply cb_vcpu_magic_insn_exec_eq|].
  split; [apply cb_vcpu_magic_insn_exec_eq|].
  cbn [plugin_state plugin_outs stderr_outs registered
       dump_file is_capturing rw trans_captured].
  rewrite negb_involutive.
  split; [now destruct (plugin_state w)|].
  split; [reflexivity|]. split; [reflexivity|].
  rewrite !length_app. cbn [length].
  destruct (is_capturing (plugin_state w)); cbn [negb length]; lia.
Qed.

(** X10.  The summary printed when capture stops is the counter, and the
    counter is the number of memory-backed accesses made while capturing
    since startup: in a state reached by a run from a successful startup
    with capture on, the toggle callback turns capture off and prints, as
    its last line, that number (modulo [2 ^ 64]) in decimal. *)
Theorem stop_summary_counts_accesses (header_ok : bool) (id : Z)
    (info : qemu_info_t) (argv : list string) (w w0 : world)
    (evs : list event) (w1 : world) (i : nat) :
  dump_file (plugin_state w) = None ->
  qemu_plugin_install header_ok id info argv w = Some (0, w0) ->
  run evs w0 = Some w1 ->
  is_capturing (plugin_state w1) = true ->
  exists w2,
    cb_vcpu_magic_insn_exec i w1 = Some w2 /\
    is_capturing (plugin_state w2) = false /\
    plugin_outs w2 =
      plugin_outs w1 ++
      [("Magic instruction executed" ++ nl)%string;
       ("Stopped capturing cache trace" ++ nl)%string;
       ("Number of transactions captured: "
        ++ PRIu64 (wrap64 (Z.of_nat (length (expected_trace evs false))))
        ++ nl)%string].
Proof.
  intros Hnull Hinst Hrun Hc.
  destruct (qemu_plugin_install_success _ _ _ _ _ _ Hnull Hinst) as (p & ->).
  destruct (installed_live header_ok id p w) as ((f0 & Hf0 & Ho0) & Hn0).
  destruct (run_counts_any evs _ f0 Hf0 Ho0 Hn0)
    as (w1' & f & Hrun' & _ & _ & _ & Hn & _).
  rewrite Hrun in Hrun'. injection Hrun' as <-.
  cbn [installed plugin_state is_capturing trans_captured] in Hn.
  rewrite Z.add_0_l in Hn.
  eexists. split; [apply cb_vcpu_magic_insn_exec_eq|].
  cbn [plugin_state plugin_outs is_capturing]. rewrite Hc, Hn.
  split; reflexivity.
Qed.

End ToggleMore.

Lemma stop_summary_counts_accesses_witness :
  dump_file (plugin_state world_at_load) = None /\
  qemu_plugin_install (host := flat_host) true 0 x86_64_system demo_argv
    world_at_load = Some (0, demo_installed) /\
  run demo_lossy_run demo_installed
  = Some (after demo_lossy_run demo_installed) /\
  is_capturing (plugin_state (after demo_lossy_run demo_installed)) = true /\
  exists w2,
    cb_vcpu_magic_insn_exec 0 (after demo_lossy_run demo_installed) = Some w2 /\
    last (plugin_outs w2) EmptyString
    = ("Number of transactions captured: 3" ++ nl)%string.
Proof.
  repeat (split; [reflexivity|]).
  destruct (stop_summary_counts_accesses (host := flat_host) true 0
              x86_64_system demo_argv world_at_load demo_installed
              demo_lossy_run (after demo_lossy_run demo_installed) 0
              eq_refl eq_refl eq_refl eq_refl) as (w2 & Hw & _ & Houts).
  exists w2. split; [exact Hw|]. rewrite Houts. reflexivity.
Defined.

(** ** Startup options *)

Lemma split_first_app (d : ascii) (s : string) : forall a b,
  split_first d s = Some (a, b) -> s = (a ++ String d b)%string.
Proof.
  induction s as [|c s IH]; intros a b H; cbn [split_first] in H.
  - discriminate.
  - destruct (Ascii.eqb_spec c d) as [-> | Hne].
    + now injection H as <- <-.
    + destruct (split_first d s) as [[a' b']|]; [|discriminate].
      injection H as <- <-. cbn [append]. f_equal. now apply IH.
Qed.

Lemma g_strcmp0_dump (x : option string) :
  (g_strcmp0 x (Some "dump"%string) =? 0) = true <-> x = Some "dump"%string.
Proof.
  destruct x as [x|]; cbn [g_strcmp0]; [|split; discriminate].
  unfold strcmp. split.
  - destruct (String.compare x "dump") eqn:Hc; try discriminate.
    intros _. f_equal. now apply String.compare_eq_iff.
  - now intros [= ->].
Qed.

(** An option that passes the test of the loop and has a path is
    [dump=path]. *)
Lemma dump_option_shape (opt p : string) :
  nth_error (g_strsplit opt "=") 0 = Some "dump"%string ->
  nth_error (g_strsplit opt "=") 1 = Some p ->
  opt = dump_option p.
Proof.
  unfold g_strsplit. destruct opt as [|c s]; [discriminate|].
  destruct (split_first "=" (String c s)) as [[a b]|] eqn:Hs;
    cbn [nth_error]; [|discriminate].
  intros [= ->] [= ->]. now apply split_first_app in Hs.
Qed.

Section StartupMore.
Context {host : Host}.

Lemma install_options_dump_step (q : string) (rest : list string) (w : world) :
  install_options (dump_option q :: rest) w
  = if can_open q then
      install_options rest (set_dump_file (Some (mkFILE q [] 0 false true)) w)
    else
      Some (Some (-1),
            eprint ("Failed to open dump file: " ++ q ++ nl)
              (set_dump_file None w)).
Proof.
  cbn [install_options]. unfold dump_option.
  cbn [append g_strsplit split_first Ascii.eqb Bool.eqb nth_error].
  change (g_strcmp0 (Some "dump"%string) (Some "dump"%string) =? 0) with true.
  cbv iota. unfold fopen. cbn [bind]. now destruct (can_open q).
Qed.

(** The loop goes through dump options that open and carries on with what
    follows them. *)
Lemma install_options_prefix (paths : list string) (rest : list string) :
  forall w,
  (forall q, In q paths -> can_open q = true) ->
  install_options (map dump_option paths ++ rest) w
  = install_options rest (set_dump_file (sink_after paths w) w).
Proof.
  induction paths as [|q paths IH]; intros w Hopen.
  - cbn [map app sink_after]. now rewrite set_dump_file_same.
  - cbn [map app]. rewrite install_options_dump_step, (Hopen q) by now left.
    rewrite IH by (intros x Hx; apply Hopen; now right).
    f_equal. destruct paths as [|q' paths']; reflexivity.
Qed.

(** What the loop has done when it stops, either way. *)
Lemma install_options_frame (argv : list string) : forall w r w1,
  install_options argv w = Some (r, w1) ->
  (exists f, w1 = mkWorld (mkState f (is_capturing (plugin_state w))
                                   (rw (plugin_state w))
                                   (trans_captured (plugin_state w)))
                          (plugin_outs w) (stderr_outs w1) (registered w)) /\
  match r with
  | None =>
      stderr_outs w1 = stderr_outs w /\
      exists paths, argv = map dump_option paths /\
                    (forall q, In q paths -> can_open q = true) /\
                    dump_file (plugin_state w1) = sink_after paths w
  | Some ret =>
      ret = -1 /\
      exists s, stderr_outs w1
                = stderr_outs w ++ [("Unknown option: " ++ s ++ nl)%string] \/
                stderr_outs w1
                = stderr_outs w
                  ++ [("Failed to open dump file: " ++ s ++ nl)%string]
  end.
Proof.
  induction argv as [|opt rest IH]; intros w r w1 H; cbn [install_options] in H.
  - injection H as <- <-. split; [exists (dump_file (plugin_state w));
      now destruct w as [[f c x n] outs errs regs]|].
    split; [reflexivity|]. exists []. now repeat split.
  - destruct (g_strcmp0 _ _ =? 0) eqn:Hd.
    + apply g_strcmp0_dump in Hd. unfold fopen in H.
      destruct (nth_error (g_strsplit opt "=") 1) as [p|] eqn:Hp;
        cbn [bind] in H; [|discriminate].
      pose proof (dump_option_shape opt p Hd Hp) as ->.
      destruct (can_open p) eqn:Hopen.
      * apply IH in H. destruct H as ((f & Hw1) & Hr).
        cbn [set_dump_file set_plugin_state plugin_state is_capturing rw
             trans_captured plugin_outs stderr_outs registered] in Hw1, Hr.
        split; [now exists f|].
        destruct r as [ret|]; [exact Hr|].
        destruct Hr as (He & paths & -> & Hall & Hsink).
        split; [exact He|]. exists (p :: paths). split; [reflexivity|].
        split; [intros q [<- | Hq]; auto|].
        rewrite Hsink. destruct paths as [|q' paths']; reflexivity.
      * injection H as <- <-. split; [now exists None|].
        split; [reflexivity|]. exists p. now right.
    + injection H as <- <-.
      split; [exists (dump_file (plugin_state w));
              now destruct w as [[f c x n] outs errs regs]|].
      split; [reflexivity|]. exists opt. now left.
Qed.

End StartupMore.

Lemma g_strcmp0_zero (x y : string) :
  (g_strcmp0 (Some x) (Some y) =? 0) = true -> x = y.
Proof.
  cbn [g_strcmp0]. unfold strcmp.
  destruct (String.compare x y) eqn:Hc; try discriminate.
  intros _. now apply String.compare_eq_iff.
Qed.

Lemma g_strcmp0_not_dump (x : option string) :
  x <> Some "dump"%string -> (g_strcmp0 x (Some "dump"%string) =? 0) = false.
Proof.
  intros Hne. destruct (g_strcmp0 x (Some "dump"%string) =? 0) eqn:H;
    [|reflexivity].
  now apply g_strcmp0_dump in H.
Qed.

Section StartupOutcomes.
Context {host : Host}.

(** X11.  Whenever [qemu_plugin_install] returns, its status is 0 or -1.
    With status 0 it printed nothing on [stderr], announced itself once
    through [qemu_plugin_outs], registered exactly its three callbacks
    (vcpu init, block translation, exit) and left the plugin idle with a
    zero counter, the read-write filter and a dump file.  With status -1 it
    registered no callback, gave nothing to [qemu_plugin_outs], left flag,
    counter and filter alone, and printed at least one line on [stderr]. *)
Theorem qemu_plugin_install_status (header_ok : bool) (id : Z)
    (info : qemu_info_t) (argv : list string) (w : world) (ret : Z)
    (w' : world) :
  qemu_plugin_install header_ok id info argv w = Some (ret, w') ->
  (ret = 0 /\
   stderr_outs w' = stderr_outs w /\
   plugin_outs w'
   = plugin_outs w ++ [("Initialized cache trace plugin" ++ nl)%string] /\
   registered w'
   = registered w ++ [Reg_vcpu_init_cb id Cb_vcpu_init;
                      Reg_vcpu_tb_trans_cb id Cb_vcpu_tb_trans;
                      Reg_atexit_cb id Cb_plugin_exit] /\
   is_capturing (plugin_state w') = false /\
   trans_captured (plugin_state w') = 0 /\
   rw (plugin_state w') = QEMU_PLUGIN_MEM_RW /\
   dump_file (plugin_state w') <> None)
  \/
  (ret = -1 /\
   registered w' = registered w /\
   plugin_outs w' = plugin_outs w /\
   is_capturing (plugin_state w') = is_capturing (plugin_state w) /\
   trans_captured (plugin_state w') = trans_captured (plugin_state w) /\
   rw (plugin_state w') = rw (plugin_state w) /\
   exists msgs, msgs <> [] /\ stderr_outs w' = stderr_outs w ++ msgs).
Proof.
  unfold qemu_plugin_install. intros H.
  destruct (install_options argv w) as [[r w1]|] eqn:Hopt; cbn [bind] in H;
    [|discriminate].
  apply install_options_frame in Hopt. destruct Hopt as ((f & Hw1) & Hr).
  destruct r as [ret1|].
  - injection H as <- <-. destruct Hr as (-> & s & Hs). right.
    rewrite Hw1. cbn. repeat (split; [reflexivity|]).
    destruct Hs as [-> | ->]; eexists; (split; [|reflexivity]); discriminate.
  - destruct Hr as (He & _). rewrite He in Hw1. subst w1.
    cbn [plugin_state dump_file] in H.
    assert (Hfail : forall msgs w2,
              msgs <> [] ->
              w2 = mkWorld (mkState f (is_capturing (plugin_state w))
                                    (rw (plugin_state w))
                                    (trans_captured (plugin_state w)))
                           (plugin_outs w) (stderr_outs w ++ msgs)
                           (registered w) ->
              Some (-1, w2) = Some (ret, w') ->
              ret = -1 /\
              registered w' = registered w /\
              plugin_outs w' = plugin_outs w /\
              is_capturing (plugin_state w') = is_capturing (plugin_state w) /\
              trans_captured (plugin_state w')
              = trans_captured (plugin_state w) /\
              rw (plugin_state w') = rw (plugin_state w) /\
              exists msgs, msgs <> [] /\ stderr_outs w' = stderr_outs w ++ msgs).
    { intros msgs w2 Hne -> [= <- <-]. cbn. repeat (split; [reflexivity|]).
      now exists msgs. }
    destruct f as [f|].
    + destruct (negb (system_emulation info)).
      { right. eapply Hfail; [| |exact H]; [|reflexivity]. discriminate. }
      destruct (max_vcpus info >? 1).
      { right. eapply Hfail; [| |exact H]; [|reflexivity]. discriminate. }
      destruct (negb _).
      { right. eapply (Hfail [_; _]); [| |exact H]; [discriminate|].
        unfold eprint. cbn. now rewrite <- app_assoc. }
      unfold fwrite in H. cbn [set_plugin_state qemu_plugin_outs plugin_state
                               dump_file bind] in H.
      destruct (f_open f); [|discriminate].
      left. destruct header_ok; cbn [bind] in H; injection H as <- <-;
        cbn; rewrite <- !app_assoc; repeat (split; [reflexivity|]);
        discriminate.
    + right. eapply Hfail; [| |exact H]; [|reflexivity]. discriminate.
Qed.

(** X12.  Startup succeeds only on well-formed input: if it returns status
    0 from the load-time state, then the argument list is not empty,
    every option in it is [dump=path] with a path that opens, the emulation
    is a system emulation with at most one vcpu, the target is "x86_64", and
    the dump file is the one named by the last option. *)
Theorem qemu_plugin_install_ok_only_if (header_ok : bool) (id : Z)
    (info : qemu_info_t) (argv : list string) (w w0 : world) :
  dump_file (plugin_state w) = None ->
  qemu_plugin_install header_ok id info argv w = Some (0, w0) ->
  exists paths p,
    argv = map dump_option (paths ++ [p]) /\
    (forall q, In q (paths ++ [p]) -> can_open q = true) /\
    system_emulation info = true /\
    max_vcpus info <= 1 /\
    target_name info = "x86_64"%string /\
    option_map f_path (dump_file (plugin_state w0)) = Some p.
Proof.
  intros Hnull H. unfold qemu_plugin_install in H.
  destruct (install_options argv w) as [[r w1]|] eqn:Hopt; cbn [bind] in H;
    [|discriminate].
  apply install_options_frame in Hopt. destruct Hopt as ((f & Hw1) & Hr).
  destruct r as [ret1|].
  - destruct Hr as (-> & _). discriminate.
  - destruct Hr as (He & paths & -> & Hall & Hsink).
    rewrite He in Hw1. subst w1. cbn [plugin_state dump_file] in H, Hsink.
    subst f.
    destruct (exists_last (l := paths)) as (ps & p & ->).
    { intros ->. cbn [sink_after] in H. rewrite Hnull in H. discriminate. }
    exists ps, p. split; [reflexivity|]. split; [exact Hall|].
    assert (Hs : sink_after (ps ++ [p]) w
                 = Some (mkFILE p [] 0 false true)).
    { unfold sink_after. rewrite last_last. now destruct ps. }
    rewrite Hs in H.
    destruct (system_emulation info); cbn [negb] in H; [|discriminate].
    destruct (max_vcpus info >? 1) eqn:Hcpu; [discriminate|].
    destruct (g_strcmp0 (Some (target_name info)) (Some "x86_64"%string) =? 0)
      eqn:Ht; cbn [negb] in H; [|discriminate].
    split; [reflexivity|].
    split; [rewrite Z.gtb_ltb in Hcpu; now apply Z.ltb_ge in Hcpu|].
    split; [now apply g_strcmp0_zero|].
    unfold fwrite in H. cbn in H.
    destruct header_ok; injection H as <-; reflexivity.
Qed.

(** X13.  An option that is not a dump option stops startup at once: after
    any dump options that open, an option whose text before its first "="
    is not "dump" makes startup print the unknown-option line and return
    -1 without looking at the remaining options or at the target; the
    stream opened for the last dump option before it, if any, is left open
    in [plugin_state]. *)
Theorem unknown_option_fails (header_ok : bool) (id : Z) (info : qemu_info_t)
    (paths : list string) (opt : string) (rest : list string) (w : world) :
  (forall q, In q paths -> can_open q = true) ->
  nth_error (g_strsplit opt "=") 0 <> Some "dump"%string ->
  qemu_plugin_install header_ok id info
    (map dump_option paths ++ opt :: rest) w
  = Some (-1, eprint ("Unknown option: " ++ opt ++ nl)
                (set_dump_file (sink_after paths w) w)).
Proof.
  intros Hall Hopt. unfold qemu_plugin_install.
  rewrite install_options_prefix by exact Hall.
  cbn [install_options]. rewrite g_strcmp0_not_dump by exact Hopt.
  reflexivity.
Qed.

(** X14.  A dump file that does not open stops startup: after any dump
    options that open, [dump=path] with a path that does not open makes
    startup print the failed-to-open line with that path and return -1,
    with [plugin_state.dump_file] NULL (the stream of an earlier dump
    option is no longer referenced) and the remaining options unread. *)
Theorem unopenable_dump_fails (header_ok : bool) (id : Z) (info : qemu_info_t)
    (paths : list string) (q : string) (rest : list string) (w : world) :
  (forall p, In p paths -> can_open p = true) ->
  can_open q = false ->
  qemu_plugin_install header_ok id info
    (map dump_option paths ++ dump_option q :: rest) w
  = Some (-1, eprint ("Failed to open dump file: " ++ q ++ nl)
                (set_dump_file None w)).
Proof.
  intros Hall Hq. unfold qemu_plugin_install.
  rewrite install_options_prefix by exact Hall.
  rewrite install_options_dump_step, Hq. reflexivity.
Qed.

(** X15.  The target is validated after the options, in a fixed order, and
    each failure leaves the dump file opened and empty.  With dump options
    that all open: a user-mode emulation is refused first; then an emulation
    with more than one vcpu; then a target other than "x86_64", with two
    lines on [stderr].  In all three cases the status is -1, the last dump
    file is open in [plugin_state] with no header written, and nothing is
    registered. *)
Theorem target_checks_fail (header_ok : bool) (id : Z) (info : qemu_info_t)
    (paths : list string) (p : string) (w : world) :
  (forall q, In q (paths ++ [p]) -> can_open q = true) ->
  let argv := map dump_option (paths ++ [p]) in
  let w1 := set_dump_file (Some (mkFILE p [] 0 false true)) w in
  (system_emulation info = false ->
   qemu_plugin_install header_ok id info argv w
   = Some (-1, eprint ("This plugin is for system emulation only" ++ nl) w1)) /\
  (system_emulation info = true -> 1 < max_vcpus info ->
   qemu_plugin_install header_ok id info argv w
   = Some (-1, eprint ("This plugin is for single-CPU emulation only" ++ nl)
                 w1)) /\
  (system_emulation info = true -> max_vcpus info <= 1 ->
   target_name info <> "x86_64"%string ->
   qemu_plugin_install header_ok id info argv w
   = Some (-1, eprint ("This plugin is for x86_64 target only" ++ nl)
                 (eprint ("Unsupported target: " ++ target_name info ++ nl)
                    w1))).
Proof.
  intros Hall argv w1. unfold qemu_plugin_install, argv.
  rewrite install_options_dumps; [| now destruct paths | exact Hall].
  rewrite last_last. fold w1. cbn [bind].
  change (dump_file (plugin_state w1)) with (Some (mkFILE p [] 0 false true)).
  cbv iota. split; [|split].
  - now intros ->.
  - intros -> Hcpu. cbn [negb].
    now replace (max_vcpus info >? 1) with true
      by (symmetry; rewrite Z.gtb_ltb; now apply Z.ltb_lt).
  - intros -> Hcpu Ht. cbn [negb].
    replace (max_vcpus info >? 1) with false
      by (symmetry; rewrite Z.gtb_ltb; now apply Z.ltb_ge).
    destruct (g_strcmp0 (Some (target_name info)) (Some "x86_64"%string) =? 0)
      eqn:Hcmp; [|reflexivity].
    now apply g_strcmp0_zero in Hcmp.
Qed.

(** X16.  The option "dump" without "=" has no path: after any dump options
    that open it makes startup call [fopen] with a NULL path, which is
    undefined. *)
Theorem dump_without_path_undefined (header_ok : bool) (id : Z)
    (info : qemu_info_t) (paths : list string) (rest : list string)
    (w : world) :
  (forall q, In q paths -> can_open q = true) ->
  qemu_plugin_install header_ok id info
    (map dump_option paths ++ "dump"%string :: rest) w = None.
Proof.
  intros Hall. unfold qemu_plugin_install.
  now rewrite install_options_prefix by exact Hall.
Qed.

End StartupOutcomes.

Section MissingOption.
Context {host : Host}.

(** X17.  From the load-time state, startup ends with the missing-option
    line as its only effect exactly when it is given no option at all,
    whatever the target is: the empty argument list is refused before the
    target is looked at, and no other argument list yields this outcome. *)
Theorem missing_dump_iff_no_option (header_ok : bool) (id : Z)
    (info : qemu_info_t) (argv : list string) (w : world) :
  dump_file (plugin_state w) = None ->
  qemu_plugin_install header_ok id info argv w
  = Some (-1, eprint ("Missing required option: dump" ++ nl) w)
  <-> argv = [].
Proof.
  intros Hnull. split.
  - intros H. destruct argv as [|opt rest]; [reflexivity|]. exfalso.
    unfold qemu_plugin_install in H.
    destruct (install_options (opt :: rest) w) as [[r w1]|] eqn:Hopt;
      cbn [bind] in H; [|discriminate].
    apply install_options_frame in Hopt. destruct Hopt as (_ & Hr).
    destruct r as [ret1|].
    + destruct Hr as (_ & s & Hs). injection H as _ ->.
      cbn [eprint stderr_outs] in Hs.
      destruct Hs as [Hs | Hs]; apply app_inv_head in Hs; discriminate.
    + destruct Hr as (_ & paths & Hargv & _ & Hsink).
      destruct paths as [|p ps]; [discriminate|].
      cbn [sink_after] in Hsink. rewrite Hsink in H.
      assert (Hd : forall (ret : Z) (w2 : world),
                dump_file (plugin_state w2) = dump_file (plugin_state w1) ->
                Some (ret, w2)
                = Some (-1, eprint ("Missing required option: dump" ++ nl) w)
                -> False).
      { intros ret w2 Hdf [= _ ->]. cbn in Hdf. congruence. }
      destruct (negb (system_emulation info)); [refine (Hd _ _ _ H); reflexivity|].
      destruct (max_vcpus info >? 1); [refine (Hd _ _ _ H); reflexivity|].
      destruct (negb _); [refine (Hd _ _ _ H); reflexivity|].
      unfold fwrite in H. cbn in H. destruct header_ok; discriminate.
  - intros ->. unfold qemu_plugin_install. cbn [install_options bind].
    now rewrite Hnull.
Qed.

End MissingOption.

(** ** The startup statements on concrete command lines *)

Lemma flat_host_opens_trace :
  forall q, In q ["trace.bin"%string] -> can_open (Host := flat_host) q = true.
Proof. intros q [<- | []]. reflexivity. Qed.

Lemma qemu_plugin_install_status_witness :
  qemu_plugin_install (host := flat_host) true 0 x86_64_system
    ["verbose=on"%string] world_at_load
  = Some (-1, eprint ("Unknown option: verbose=on" ++ nl) world_at_load) /\
  registered (eprint ("Unknown option: verbose=on" ++ nl) world_at_load)
  = registered world_at_load.
Proof.
  split; [reflexivity|].
  destruct (qemu_plugin_install_status (host := flat_host) true 0 x86_64_system
              ["verbose=on"%string] world_at_load (-1)
              (eprint ("Unknown option: verbose=on" ++ nl) world_at_load)
              eq_refl) as [(H0 & _) | (_ & Hreg & _)].
  - discriminate H0.
  - exact Hreg.
Defined.

Lemma qemu_plugin_install_ok_only_if_witness :
  dump_file (plugin_state world_at_load) = None /\
  qemu_plugin_install (host := flat_host) true 0 x86_64_system demo_argv
    world_at_load = Some (0, demo_installed) /\
  exists paths p,
    demo_argv = map dump_option (paths ++ [p]) /\
    target_name x86_64_system = "x86_64"%string /\
    option_map f_path (dump_file (plugin_state demo_installed)) = Some p.
Proof.
  repeat (split; [reflexivity|]).
  destruct (qemu_plugin_install_ok_only_if (host := flat_host) true 0
              x86_64_system demo_argv world_at_load demo_installed
              eq_refl eq_refl)
    as (paths & p & Hargv & _ & _ & _ & Ht & Hp).
  exists paths, p. split; [exact Hargv|]. split; [exact Ht | exact Hp].
Defined.

Lemma unknown_option_fails_witness :
  (forall q, In q ["trace.bin"%string] ->
             can_open (Host := flat_host) q = true) /\
  nth_error (g_strsplit "dumpfile=x" "=") 0 <> Some "dump"%string /\
  qemu_plugin_install (host := flat_host) true 0 x86_64_system
    (map dump_option ["trace.bin"%string]
     ++ "dumpfile=x"%string :: ["dump=other"%string]) world_at_load
  = Some (-1, eprint ("Unknown option: dumpfile=x" ++ nl)
                (set_dump_file
                   (sink_after ["trace.bin"%string] world_at_load)
                   world_at_load)).
Proof.
  split; [exact flat_host_opens_trace|].
  split; [discriminate|].
  apply (unknown_option_fails (host := flat_host) true 0 x86_64_system
           ["trace.bin"%string] "dumpfile=x" ["dump=other"%string]
           world_at_load flat_host_opens_trace).
  discriminate.
Defined.

Lemma unopenable_dump_fails_witness :
  (forall q, In q ["trace.bin"%string] ->
             can_open (Host := flat_host) q = true) /\
  can_open (Host := flat_host) EmptyString = false /\
  qemu_plugin_install (host := flat_host) true 0 x86_64_system
    (map dump_option ["trace.bin"%string] ++ dump_option EmptyString :: [])
    world_at_load
  = Some (-1, eprint ("Failed to open dump file: " ++ EmptyString ++ nl)
                (set_dump_file None world_at_load)).
Proof.
  split; [exact flat_host_opens_trace|].
  split; [reflexivity|].
  exact (unopenable_dump_fails (host := flat_host) true 0 x86_64_system
           ["trace.bin"%string] EmptyString [] world_at_load
           flat_host_opens_trace eq_refl).
Defined.

Lemma target_checks_fail_witness :
  (forall q, In q ([] ++ ["trace.bin"%string]) ->
             can_open (Host := flat_host) q = true) /\
  qemu_plugin_install (host := flat_host) true 0 (mkInfo "aarch64" true 1)
    (map dump_option ([] ++ ["trace.bin"%string])) world_at_load
  = Some (-1, eprint ("This plugin is for x86_64 target only" ++ nl)
                (eprint ("Unsupported target: " ++ "aarch64" ++ nl)
                   (set_dump_file (Some (mkFILE "trace.bin" [] 0 false true))
                      world_at_load))).
Proof.
  split; [exact flat_host_opens_trace|].
  apply (proj2 (proj2
    (target_checks_fail (host := flat_host) true 0 (mkInfo "aarch64" true 1)
       [] "trace.bin" world_at_load flat_host_opens_trace)));
    [reflexivity | vm_compute; discriminate | discriminate].
Defined.

Lemma dump_without_path_undefined_witness :
  (forall q, In q ["trace.bin"%string] ->
             can_open (Host := flat_host) q = true) /\
  qemu_plugin_install (host := flat_host) true 0 x86_64_system
    (map dump_option ["trace.bin"%string] ++ "dump"%string :: [])
    world_at_load = None.
Proof.
  split; [exact flat_host_opens_trace|].
  exact (dump_without_path_undefined (host := flat_host) true 0 x86_64_system
           ["trace.bin"%string] [] world_at_load flat_host_opens_trace).
Defined.

Lemma missing_dump_iff_no_option_witness :
  dump_file (plugin_state world_at_load) = None /\
  qemu_plugin_install (host := flat_host) true 0 (mkInfo "aarch64" false 4)
    [] world_at_load
  = Some (-1, eprint ("Missing required option: dump" ++ nl) world_at_load).
Proof.
  split; [reflexivity|].
  exact (proj2 (missing_dump_iff_no_option (host := flat_host) true 0
                  (mkInfo "aarch64" false 4) [] world_at_load eq_refl)
               eq_refl).
Defined.

(** ** Runs compose, and the dump file only grows *)

Section AppendOnly.
Context {host : Host}.



End AppendOnly.

